(* ===== verification/_CoqProject ===== *)
-Q . S2P
Prelude.v
Catalog.v
ColumnCheck.v
SystemTables.v
Registry.v
Registration.v
Layout.v
Dictionary.v
