(* ===== verification/Prelude.v ===== *)
(** * Dictionaries and [system.tables] of ClickHouse: a verification development

    ** The program

    The repository's sources ([src/]) are two files of the server:
    - [Dictionaries/registerDictionaries.cpp]: [registerDictionaries()]
      registers, at start-up, ten dictionary sources (file, MySQL,
      ClickHouse, MongoDB, Redis, ODBC, JDBC, executable, HTTP, library)
      into the singleton [DictionarySourceFactory], then eight dictionary
      layouts (range_hashed, complex_key_hashed, complex_key_cache,
      ip_trie, flat, hashed, cache, polygon) into the singleton
      [DictionaryFactory].  It is the seam between the configuration and
      the dictionary engine: a dictionary's configuration names a source
      type and a layout type, and the factories construct them by name.
    - [Storages/System/StorageSystemTables.cpp]: the table
      [system.tables]; [read] checks the queried columns, lists the
      databases of the context, filters them by the query's condition on
      [database], and fills five columns (database, name, engine,
      metadata_modification_time, temporary) with a row per table of each
      database still present when it is looked up, then a row per external
      table of the session; the result is one block.

    The collaborators these files call (the factories, the catalog of
    databases and tables, the query filter, the column check) are not in
    [src/]; they are modelled from the spec and from the calls made on them.

    ** Files

    - [Prelude]: the [result] type of fallible code (an exception is
      [Err] with its [ErrorCode]) with stdpp's monad notation, fixed-width unsigned integers
      ([wrap w z = z mod 2^w]: a [static_cast] or the narrowing of a
      [UInt64] field into a narrower column), association lists for
      [std::map]s kept in iteration order, the hint database [dict], and
      the list and integer lemmas shared by the components.
    - [Catalog] (module [Catalog]): [Table] ([IStorage::getName]),
      [Database] (its tables in iterator order, metadata times as
      [time_t]), [Context] (databases, optional session with external
      tables), [tryGetDatabase], [filterBlockWithQuery] restricted to
      the query's condition on the column [database], and [context_wf]
      (each [std::map] of the catalog has distinct names).
    - [ColumnCheck] (module [ColumnCheck]): [ITableDeclaration::check] for
      a table with given columns ([check_names], the loop over the queried
      names, and [check]).
    - [SystemTables] (module [SystemTables]): the declared [columns] (the
      check of [read] is [check (keys columns)]), [getFilteredDatabases] ([databasesColumn], the
      column of database names, then the query filter), the mutable
      columns and [insertRow] (a 32-bit [DateTime] and an 8-bit [UInt8]
      column), the loops of [read] as the code writes them
      ([forFilteredDatabases], the index loop [row_number < size()] by
      well-founded recursion (Equations) with its body [insertDatabase];
      [insertDatabaseTables]; [insertExternalTables] and its loop
      [insertExternalTableRows]) and [read] itself.  The list-recursive
      [insertFilteredDatabases] is the reference the index loop is proved
      equal to.  Interleaving: [read]
      takes an [Observed] catalog, the state seen by each of its calls in
      program order (listing, one lookup per listed name, external
      tables), so that databases created or dropped meanwhile are in the
      model.  The specification [system_tables_rows] lists the rows
      declaratively.
    - [Registry] (module [Registry]): the factory contract as the class
      [FactoryOps] with its laws [FactoryLaws] (register once per name,
      create by name, [UNKNOWN_ELEMENT_IN_CONFIG] otherwise), and its
      instance on [gmap string] (the factories' hash map).
    - [Registration] (module [Registration]): [SourceKind] and
      [LayoutKind] (one constructor per registration call), the type name
      each registers, [registerAll] (a block of calls; the first exception
      ends it and keeps what was registered), [registerSources],
      [registerLayouts], [registerDictionaries] over the two singletons,
      and [createDictionary] (the source is created before the layout is
      looked up), and the reference registry [registered] (a type name
      creates the first registration with that name).  Its theorems are proved
      against [FactoryLaws] only.

    - [Layout] (module [Layout]): the engine's error taxonomy
      [DictionaryError], the interface [DictionaryLayout] between the
      facade and a layout (build a snapshot from the rows of a bulk load,
      or refuse them; answer a query from a snapshot), [last_value] (the
      value of a key's last row), the hashed layout [Hashed] (its instance
      on [gmap]), and the range_hashed layout [RangeHashed]: rows carry a
      closed interval, [insertRange] adds one row to its key's intervals
      or refuses an overlapping one with [SourceDataError], and a query is
      a key and a point.
    - [Dictionary] (module [Dictionary]): the facade [DictState] (the
      published snapshot and the last load error), [reload] (probe
      [isModified]; otherwise [loadAll], build in a scratch structure and
      publish by one swap; on failure keep the published snapshot),
      [get], [bulkGet] and [isLoaded]; the interleaving of lookups with reloads as
      the step relation [step] and its reachable states [reachable].

    ** Theorems

    - [SystemTables]: [read] refines the row specification (C1); in an
      unchanging catalog its block holds exactly the tables of the
      filtered databases, with engine and time modulo 2^32, and the
      session's external tables (C2); a failed column check is the result
      of [read] (C3), and the check's exact condition (C10); every block
      has five columns of one length, the number of specified rows (C4);
      under concurrent DDL every listed table was seen in its database,
      and a database dropped after the listing gives no row (C5, C6); time
      and flag columns stay in their ranges (C7); order: databases in
      filtered order, tables in iterator order, external tables last
      (C8); row count (C9); the check reports the first offending name,
      whatever follows it (C16); under concurrent DDL no table is listed
      twice (C17); the index loop stops after exactly
      [size() - row_number] iterations (C18) and inserts exactly the
      specified rows (C19); an empty catalog gives the external tables
      only, or an empty block (C20).  Each is stated on the block [read]
      returns (or on its loop), so that a change to any loop, row or
      column definition breaks it.
    - [Registration]: registration into empty factories raises nothing
      and every source and layout is created by its name (C11); a second
      registration throws on "file" and changes nothing (C12); dictionary
      creation succeeds for registered names and reports an unknown
      source before the layout (C13); a block that meets a taken name
      throws on it and keeps what it registered before (C14); registration
      builds exactly the reference registries of its two blocks, and
      dictionary creation is their lookup (C15).  The type name each
      [registerX] call registers is taken from the spec and the
      configuration element names, one name per call.
    - [Dictionary] (theorems of the spec-modelled facade and layouts, not
      about the code in [src/]): in any interleaving of reloads and lookups, a lookup sees
      [DictionaryNotLoaded] or a complete build, never a partial one
      ([reads_observe_complete_builds]); a failed reload keeps every
      answer and [isLoaded] ([reload_failure_keeps_snapshot]); an
      unmodified source causes no churn and forced reloads of an unchanged
      source publish the same snapshot ([reload_idempotent]); a dictionary
      is not loaded iff no reload has succeeded
      ([not_loaded_iff_no_successful_load]); a batch lookup reads one
      complete snapshot ([bulkGet_one_snapshot]); no step takes a loaded
      dictionary back to not loaded ([step_keeps_loaded]); a hashed
      dictionary answers
      each key with its last row ([hashed_reload_get]).  In [Layout]: a
      range_hashed load succeeds iff no two intervals of a key overlap,
      and otherwise fails with [SourceDataError]
      ([range_build_disjoint]); a lookup of a key and a point returns the
      attributes of the interval containing it ([range_lookup_spec]); in
      [Dictionary], the same through the facade, and a reload with
      overlapping intervals keeps every answer
      ([range_reload_get], [range_reload_overlap_keeps]).

    No fuel is needed.  The loop over the filtered databases counts
    [row_number] up to the column's size; it is defined by well-founded
    recursion on [size() - row_number], and C22 shows it runs exactly that
    many iterations.  Every other loop runs over a finite list (a map's
    entries) and is a [fold_left].

    ** Not modelled

    The rest of the dictionary engine the spec describes is not in the
    repository; the parts modelled from the spec are [Layout] and
    [Dictionary], as far as the layout contract, the hashed and
    range_hashed layouts and the facade.  Not modelled: the source
    connectors (their I/O is out of scope; the facade takes a source's
    answers to [isModified] and [loadAll] as inputs), the key model
    (keys are a countable type, or a key with a point), the layouts flat,
    complex_key_*, ip_trie, cache and polygon, [getOrDefault] and [has],
    lifetimes and the refresh scheduler, the query pipeline
    after [read], and configuration parsing.  The parameters
    [max_block_size] and [num_streams] of [read] are unused by the code
    (commented out in its signature) and are left out of the model.  No
    component of [src/] is reactive, so no liveness property arises
    there; the facade's progress is [not_loaded_iff_no_successful_load]
    and [step_keeps_loaded].

    Every statement of the two files of [src/] is translated; their lines
    left out of the map are includes, namespace lines and braces.  The
    engine parts outside the repository are modelled only as far as the
    code meets them (the factories, the check, the catalog) and as the
    layout contract with two of its layouts and the facade.
    *)

From Stdlib Require Import ZArith Lia.
From stdpp Require Export base list strings option.

(** ** Scope and results *)

Declare Scope dict_scope.
Delimit Scope dict_scope with dict.
Open Scope Z_scope.

(** The C++ code signals failure by throwing [DB::Exception]; the model
    returns a value of [result]: [Ok] for a normal return, [Err] for a
    thrown exception carrying its error code. *)
Inductive result (E A : Type) : Type :=
  | Ok (a : A)
  | Err (e : E).
Arguments Ok {E A} a.
Arguments Err {E A} e.

(** The error codes of the [DB::Exception]s thrown by the modelled code
    (the server's [ErrorCodes]), with the name the message reports. *)
Inductive ErrorCode :=
  | EMPTY_LIST_OF_COLUMNS_QUERIED
  | NO_SUCH_COLUMN_IN_TABLE (name : string)
  | COLUMN_QUERIED_MORE_THAN_ONCE (name : string)
  | LOGICAL_ERROR (name : string)
  | UNKNOWN_ELEMENT_IN_CONFIG (name : string).

#[export] Instance result_ret E : MRet (result E) := fun _ a => Ok a.
#[export] Instance result_bind E : MBind (result E) :=
  fun _ _ k r => match r with Ok a => k a | Err e => Err e end.

(** ** Fixed-width unsigned integers

    [wrap w z] is the value of [z] stored in a [w]-bit unsigned integer:
    the C++ conversion [static_cast<UIntw>] of a signed or wider value,
    and the implicit narrowing of a [UInt64] pushed into a vector of a
    narrower unsigned type. *)
Definition wrap (w z : Z) : Z := z mod 2 ^ w.

Definition UInt8 : Z := 8.
Definition UInt32 : Z := 32.
Definition UInt64 : Z := 64.

(** ** Association lists

    A [std::map<String, T>] is iterated in key order and holds each key
    once; the model keeps its entries as a list of pairs, in iteration
    order, with [NoDup] keys as its well-formedness condition. *)
Fixpoint assoc_lookup {K V} `{EqDecision K} (k : K) (l : list (K * V)) : option V :=
  match l with
  | [] => None
  | (k', v) :: l' => if decide (k = k') then Some v else assoc_lookup k l'
  end.

Definition keys {K V} (l : list (K * V)) : list K := map fst l.

Create HintDb dict discriminated.

(** Close a decidable goal on concrete data by evaluation. *)
Ltac by_decision := apply (bool_decide_unpack _); vm_compute; reflexivity.

(** ** Generic lemmas *)

Section Wrap.
Context (w : Z) (Hw : 0 <= w).

Lemma wrap_range z : 0 <= wrap w z < 2 ^ w.
Proof. unfold wrap. apply Z.mod_pos_bound. lia. Qed.

Lemma wrap_small z : 0 <= z < 2 ^ w -> wrap w z = z.
Proof. unfold wrap. apply Z.mod_small. Qed.

(** Narrowing after widening: the wide conversion is invisible. *)
Lemma wrap_wrap_le w' z : w <= w' -> wrap w (wrap w' z) = wrap w z.
Proof.
  intros Hle. unfold wrap. apply Z.mod_mod_divide.
  exists (2 ^ (w' - w)). rewrite <- Z.pow_add_r by lia. f_equal; lia.
Qed.
End Wrap.

Section Assoc.
Context {K V : Type} `{EqDecision K}.

Lemma assoc_lookup_In (k : K) (v : V) l :
  assoc_lookup k l = Some v -> In (k, v) l.
Proof.
  induction l as [|[k' v'] l IH]; simpl; [done|].
  case_decide; [intros [= ->]; subst; by left | intros; right; auto].
Qed.

End Assoc.

(** A loop over a mapped list is the loop that maps each element. *)
Lemma fold_left_map_fusion {A B C} (f : A -> B -> A) (g : C -> B) (l : list C) (a : A) :
  fold_left f (map g l) a = fold_left (fun acc x => f acc (g x)) l a.
Proof. revert a. induction l as [|x l IH]; intros a; simpl; auto. Qed.

(** A loop that appends one value per element builds the mapped list. *)
Lemma fold_left_snoc_map {A B} (f : A -> B) (l : list A) (acc : list B) :
  fold_left (fun acc x => acc ++ [f x]) l acc = acc ++ map f l.
Proof.
  revert acc. induction l as [|x l IH]; intros acc; simpl; [by rewrite app_nil_r|].
  by rewrite IH, <- app_assoc.
Qed.

Lemma Forall_not_elem_of_cons {A} (x : A) (seen l : list A) :
  Forall (fun y => y ∉ (x :: seen)) l <-> ((x ∉ l) /\ Forall (fun y => y ∉ seen) l).
Proof.
  rewrite !Forall_forall, list_elem_of_In. setoid_rewrite not_elem_of_cons.
  split; [intros H; split; [intros Hx; by destruct (H x Hx) | naive_solver] |].
  intros [Hx H] y Hy. split; [intros ->; contradiction | auto].
Qed.

Lemma zip_map_same {A B C} (f : A -> B) (g : A -> C) (l : list A) :
  zip (map f l) (map g l) = map (fun x => (f x, g x)) l.
Proof. induction l; simpl; congruence. Qed.

Lemma Forall_not_elem_of_nil {A} (l : list A) : Forall (fun y => y ∉ []) l.
Proof. apply Forall_forall. intros y _. apply not_elem_of_nil. Qed.

Lemma NoDup_map_inj {A B} (f : A -> B) (l : list A) :
  (forall x y, f x = f y -> x = y) -> NoDup l -> NoDup (map f l).
Proof.
  intros Hf. induction 1 as [|x l Hx Hl IH]; simpl; constructor; [|done].
  intros (y & Hxy%Hf & Hy)%list_elem_of_In%in_map_iff. subst. by apply Hx, list_elem_of_In.
Qed.

Lemma ForallOrdPairs_cons_iff {A} (R : A -> A -> Prop) a l :
  ForallOrdPairs R (a :: l) <-> Forall (R a) l /\ ForallOrdPairs R l.
Proof. split; [inversion 1; auto | intros []; by constructor]. Qed.

(** Pairwise conditions grow at the end of a list: the new element
    against every earlier one. *)
Lemma ForallOrdPairs_snoc {A} (R : A -> A -> Prop) l x :
  ForallOrdPairs R (l ++ [x]) <-> ForallOrdPairs R l /\ Forall (fun y => R y x) l.
Proof.
  induction l as [|a l IH]; simpl.
  - split; [split; constructor | intros _; repeat constructor].
  - rewrite !ForallOrdPairs_cons_iff, IH, Forall_app, Forall_singleton, Forall_cons_iff. tauto.
Qed.

#[export] Hint Resolve wrap_range wrap_small assoc_lookup_In Forall_not_elem_of_nil : dict.
