(* ===== verification/Catalog.v ===== *)
(** * Catalog: the collaborators read by [StorageSystemTables::read]

    The databases, tables and query context that the system table lists.
    Their code is outside [src/]; they are modelled from the spec's
    catalog collaborator (an enumerable set of databases and tables with
    name, engine label and metadata time) and from the calls that
    [StorageSystemTables.cpp] makes on them. *)

From S2P Require Import Prelude.

Module Catalog.

(** [IStorage]: the only call made on a table is [getName()], the name of
    its engine ("MergeTree", "Memory", ...). *)
Record Table := mkTable { table_engine : string }.

(** [IDatabase]: its tables in the order of [getIterator] (a
    [std::map] by table name) and [getTableMetadataModificationTime],
    a [time_t] (signed 64-bit) per table name. *)
Record Database := mkDatabase {
  db_tables : list (string * Table);
  db_metadata_mtime : string -> Z
}.

(** [Context]: [getDatabases()] (a [std::map] by database name) and the
    session context, when there is one ([hasSessionContext]), with its
    external (temporary) tables [getExternalTables()]. *)
Record Context := mkContext {
  ctx_databases : list (string * Database);
  ctx_session : option (list (string * Table))
}.

(** [Context::tryGetDatabase]: [nullptr] when no database has the name.
    The real lookup first resolves an empty name to the current database;
    that case is not modelled, since the names [read] looks up are keys of
    [getDatabases()], and a database is never created with an empty
    name. *)
Definition tryGetDatabase (c : Context) (name : string) : option Database :=
  assoc_lookup name (ctx_databases c).

(** The part of the query's WHERE and PREWHERE conditions that depends
    only on the column [database] (the conjuncts that
    [VirtualColumnUtils::filterBlockWithQuery] can evaluate on a block
    holding that single column); [None] when there is no such conjunct. *)
Record SelectQuery := mkSelectQuery {
  query_database_condition : option (string -> bool)
}.

(** [VirtualColumnUtils::filterBlockWithQuery] on a block whose only
    column is [database]: keeps, in order, the rows whose value satisfies
    the condition; the block is left as it is without a condition. *)
Definition filterBlockWithQuery (q : SelectQuery) (column : list string) : list string :=
  match query_database_condition q with
  | None => column
  | Some cond => filter (fun name => cond name = true) column
  end.

(** The catalog's maps are [std::map]s: the databases of a context, the
    tables of each database and the external tables of the session have
    distinct names. *)
Definition context_wf (c : Context) : Prop :=
  NoDup (keys (ctx_databases c)) /\
  Forall (fun nd => NoDup (keys (db_tables nd.2))) (ctx_databases c) /\
  match ctx_session c with Some ext => NoDup (keys ext) | None => True end.

(** ** Lemmas *)

Lemma filterBlockWithQuery_sublist q column :
  sublist (filterBlockWithQuery q column) column.
Proof.
  unfold filterBlockWithQuery. destruct (query_database_condition q); [|done].
  apply sublist_filter.
Qed.

Lemma elem_of_filterBlockWithQuery q column name :
  name ∈ filterBlockWithQuery q column <->
  name ∈ column /\
  (forall cond, query_database_condition q = Some cond -> cond name = true).
Proof.
  unfold filterBlockWithQuery. destruct (query_database_condition q) as [cond|].
  - rewrite list_elem_of_filter. naive_solver.
  - naive_solver.
Qed.

Lemma tryGetDatabase_In c name db :
  tryGetDatabase c name = Some db -> In (name, db) (ctx_databases c).
Proof. apply assoc_lookup_In. Qed.

Lemma context_wf_tables c name db :
  context_wf c -> tryGetDatabase c name = Some db -> NoDup (keys (db_tables db)).
Proof.
  intros (_ & Hdbs & _) Hdb%tryGetDatabase_In.
  exact (proj1 (List.Forall_forall _ _) Hdbs _ Hdb).
Qed.

End Catalog.

#[export] Hint Resolve Catalog.filterBlockWithQuery_sublist Catalog.tryGetDatabase_In : dict.
