(* ===== verification/ColumnCheck.v ===== *)
(** * ColumnCheck: the column check of a table

    [ITableDeclaration::check(column_names)], called first by
    [StorageSystemTables::read] (line 48 of
    [src/dbms/src/Storages/System/StorageSystemTables.cpp]).  Its code is
    outside [src/]; it is modelled from the exceptions it throws: an
    empty list of queried columns, a name that is no column of the table,
    and a column queried more than once.  The table's columns are a
    parameter, as they are a member of the table's declaration; the
    check of [system.tables] and its theorems are in [SystemTables]. *)

From S2P Require Import Prelude.

Module ColumnCheck.

(** The loop over the queried names: [available] are the table's
    columns, [seen] the names already checked.  The first offending name
    throws. *)
Fixpoint check_names (available seen names : list string) : result ErrorCode unit :=
  match names with
  | [] => Ok tt
  | name :: rest =>
      if decide (name ∈ available) then
        if decide (name ∈ seen) then Err (COLUMN_QUERIED_MORE_THAN_ONCE name)
        else check_names available (name :: seen) rest
      else Err (NO_SUCH_COLUMN_IN_TABLE name)
  end.

(** [ITableDeclaration::check(column_names)] for a table whose columns
    are named [available]: the empty list is refused, then every queried
    name is checked in order. *)
Definition check (available column_names : list string) : result ErrorCode unit :=
  match column_names with
  | [] => Err EMPTY_LIST_OF_COLUMNS_QUERIED
  | _ => check_names available [] column_names
  end.

(** ** Lemmas *)

Lemma check_names_ok available seen names :
  check_names available seen names = Ok tt <->
  Forall (fun n => n ∈ available) names /\ NoDup names /\ Forall (fun n => n ∉ seen) names.
Proof.
  revert seen. induction names as [|n names IH]; intros seen; simpl.
  - split; [intros _; split_and!; constructor | done].
  - rewrite !Forall_cons_iff, list.NoDup_cons.
    case_decide as Ha; [case_decide as Hs|].
    + naive_solver.
    + rewrite IH, Forall_not_elem_of_cons. naive_solver.
    + naive_solver.
Qed.

(** A prefix of declared, distinct, unseen names passes and is added to
    the names seen. *)
Lemma check_names_app available seen pre rest :
  Forall (fun n => n ∈ available) pre -> NoDup pre -> Forall (fun n => n ∉ seen) pre ->
  check_names available seen (pre ++ rest) = check_names available (rev pre ++ seen) rest.
Proof.
  revert seen. induction pre as [|n pre IH]; intros seen Ha Hnd Hs; simpl; [done|].
  rewrite Forall_cons_iff in Ha, Hs. apply list.NoDup_cons in Hnd as [Hn Hnd].
  rewrite !decide_True by tauto. rewrite decide_False by tauto.
  rewrite IH by (try rewrite Forall_not_elem_of_cons; tauto).
  by rewrite <- app_assoc.
Qed.

End ColumnCheck.
