(* ===== verification/SystemTables.v ===== *)
(** * SystemTables: the table [system.tables]

    [src/dbms/src/Storages/System/StorageSystemTables.cpp]: the declared
    columns, [getFilteredDatabases], and [StorageSystemTables::read],
    which fills five mutable columns with one row per table of every
    (filtered) database and one row per external table of the session,
    and returns them as a single block.

    The context is read several times by [read] and other queries may
    create or drop databases in between (the code's comment: "Database
    was deleted just now").  The model makes this explicit: [read] takes
    an [Observed] context, the state of the catalog as seen by each of
    its calls in program order.  A database's tables and their metadata
    times are those of the database value its lookup returned (the
    snapshot its iterator takes).  The loop over the filtered databases
    is the code's index loop, defined with Equations by well-founded
    recursion on [size() - row_number]. *)

From S2P Require Import Prelude Catalog ColumnCheck.
From Equations Require Import Equations.

Module SystemTables.
Import Catalog ColumnCheck.
Local Open Scope string_scope.

(** ** Data *)

(** The data types of the declared columns. *)
Inductive DataType := DataTypeString | DataTypeDateTime | DataTypeUInt8.

(** [StorageSystemTables::StorageSystemTables]: the five columns. *)
Definition columns : list (string * DataType) :=
  [("database", DataTypeString);
   ("name", DataTypeString);
   ("engine", DataTypeString);
   ("metadata_modification_time", DataTypeDateTime);
   ("temporary", DataTypeUInt8)].


(** [QueryProcessingStage::Enum]. *)
Inductive QueryProcessingStage := FetchColumns | WithMergeableState | Complete.

(** [res_columns]: the mutable columns of the sample block, a
    [ColumnString] for each of the three strings, a [ColumnUInt32] for
    the [DateTime] and a [ColumnUInt8]. *)
Record MutableColumns := mkColumns {
  col_database : list string;
  col_name : list string;
  col_engine : list string;
  col_metadata_modification_time : list Z;
  col_temporary : list Z
}.

(** [getSampleBlock().cloneEmptyColumns()]. *)
Definition cloneEmptyColumns : MutableColumns := mkColumns [] [] [] [] [].

(** The five [Field]s of one row, as the code builds them: strings, and
    two [UInt64] fields. *)
Record Row := mkRow {
  row_database : string;
  row_name : string;
  row_engine : string;
  row_metadata_modification_time : Z;
  row_temporary : Z
}.

(** [res_columns[i]->insert(field)] for the five columns.  A numeric
    column stores the [UInt64] field in its own width: the [DateTime]
    column keeps 32 bits, the [UInt8] column 8. *)
Definition insertRow (cols : MutableColumns) (r : Row) : MutableColumns :=
  mkColumns
    (col_database cols ++ [row_database r])
    (col_name cols ++ [row_name r])
    (col_engine cols ++ [row_engine r])
    (col_metadata_modification_time cols ++ [wrap UInt32 (row_metadata_modification_time r)])
    (col_temporary cols ++ [wrap UInt8 (row_temporary r)]).

(** The row of table [table_name] of database [database_name]: the
    metadata time is [static_cast<UInt64>] of a [time_t]. *)
Definition databaseTableRow (database_name : string) (database : Database)
    (table_name : string) (table : Table) : Row :=
  mkRow database_name table_name (table_engine table)
    (wrap UInt64 (db_metadata_mtime database table_name)) 0.

(** The row of an external table: empty database, time 0, temporary. *)
Definition externalTableRow (table_name : string) (table : Table) : Row :=
  mkRow "" table_name (table_engine table) 0 1.

(** The loop over the iterator of one database. *)
Definition insertDatabaseTables (database_name : string) (database : Database)
    (cols : MutableColumns) : MutableColumns :=
  fold_left (fun cols nt => insertRow cols (databaseTableRow database_name database nt.1 nt.2))
    (db_tables database) cols.

(** The [ColumnString] of [getFilteredDatabases] before filtering: the
    name of every database of [context.getDatabases()], inserted in
    iteration order. *)
Definition databasesColumn (c : Context) : list string :=
  fold_left (fun column db => (column ++ [db.1])%list) (ctx_databases c) [].

(** [getFilteredDatabases]: the block of that one column [database],
    filtered by the query's condition on it. *)
Definition getFilteredDatabases (q : SelectQuery) (c : Context) : list string :=
  filterBlockWithQuery q (databasesColumn c).

(** The catalog as observed by the calls of [read]: call 0 is
    [getDatabases], call [S i] is [tryGetDatabase] for the [i]-th
    filtered name, and the call after the last of those reads the
    session's external tables. *)
Definition Observed := nat -> Context.

(** The body of the loop over the filtered databases: look the database
    up again in the context [c] of this call; a database dropped since
    the list was taken is skipped ([continue]). *)
Definition insertDatabase (c : Context) (database_name : string)
    (cols : MutableColumns) : MutableColumns :=
  match tryGetDatabase c database_name with
  | None => cols
  | Some database => insertDatabaseTables database_name database cols
  end.

(** The loop over the filtered databases as the code writes it:
    [for (row_number = 0; row_number < filtered_databases_column->size();
    ++row_number)], the name read by [getDataAt(row_number)].  It
    terminates because [size() - row_number] decreases; the lookup of
    iteration [row_number] is the call [S row_number] of [obs]. *)
Equations? forFilteredDatabases (obs : Observed) (filtered_databases_column : list string)
    (row_number : nat) (cols : MutableColumns) : MutableColumns
    by wf (length filtered_databases_column - row_number)%nat lt :=
  forFilteredDatabases obs column row_number cols
    with decide (row_number < length column)%nat => {
    | left Hlt =>
        forFilteredDatabases obs column (S row_number)
          (insertDatabase (obs (S row_number)) (default "" (column !! row_number)) cols);
    | right _ => cols }.
Proof. lia. Qed.

(** The loop over the external tables of the session. *)
Definition insertExternalTableRows (external_tables : list (string * Table))
    (cols : MutableColumns) : MutableColumns :=
  fold_left (fun cols nt => insertRow cols (externalTableRow nt.1 nt.2)) external_tables cols.

(** [if (context.hasSessionContext())]: the external tables of the
    session context, when there is one. *)
Definition insertExternalTables (c : Context) (cols : MutableColumns) : MutableColumns :=
  match ctx_session c with
  | None => cols
  | Some external_tables => insertExternalTableRows external_tables cols
  end.

(** A block: its header (names and types) and its columns. *)
Record Block := mkBlock {
  block_header : list (string * DataType);
  block_columns : MutableColumns
}.

(** [StorageSystemTables::read]: the processing stage reached and the
    block streams, one stream of one block. *)
Definition read (column_names : list string) (q : SelectQuery) (obs : Observed)
    : result ErrorCode (QueryProcessingStage * list Block) :=
  check (keys columns) column_names ;;
  let filtered_databases := getFilteredDatabases q (obs 0%nat) in
  let res_columns := forFilteredDatabases obs filtered_databases 0 cloneEmptyColumns in
  let res_columns := insertExternalTables (obs (S (length filtered_databases))) res_columns in
  Ok (FetchColumns, [mkBlock columns res_columns]).

(** ** Specification: the rows of [system.tables]

    The rows the code inserts, as a list: the tables of each filtered
    database present when it is looked up, in the order of the filtered
    list and of each database's iterator, then the external tables. *)

(** The reference loop over a list of names, by structural recursion on
    the list; [row_number] numbers the calls of [obs]. *)
Fixpoint insertFilteredDatabases (obs : Observed) (row_number : nat)
    (names : list string) (cols : MutableColumns) : MutableColumns :=
  match names with
  | [] => cols
  | database_name :: rest =>
      insertFilteredDatabases obs (S row_number) rest
        (insertDatabase (obs (S row_number)) database_name cols)
  end.

Definition databaseRows (database_name : string) (database : Database) : list Row :=
  map (fun nt => databaseTableRow database_name database nt.1 nt.2) (db_tables database).

Fixpoint filteredDatabaseRows (obs : Observed) (row_number : nat) (names : list string)
    : list Row :=
  match names with
  | [] => []
  | name :: rest =>
      match tryGetDatabase (obs (S row_number)) name with
      | None => []
      | Some database => databaseRows name database
      end ++ filteredDatabaseRows obs (S row_number) rest
  end.

Definition externalRows (c : Context) : list Row :=
  match ctx_session c with
  | None => []
  | Some external_tables => map (fun nt => externalTableRow nt.1 nt.2) external_tables
  end.

Definition system_tables_rows (q : SelectQuery) (obs : Observed) : list Row :=
  let filtered := getFilteredDatabases q (obs 0%nat) in
  filteredDatabaseRows obs 0 filtered ++ externalRows (obs (S (length filtered))).

(** A catalog that does not change while [read] runs. *)
Definition stable (c : Context) : Observed := fun _ => c.

(** The five values a row leaves in the columns. *)
Definition storedRow (r : Row) : string * string * string * Z * Z :=
  (row_database r, row_name r, row_engine r,
   wrap UInt32 (row_metadata_modification_time r), wrap UInt8 (row_temporary r)).

Fixpoint zip5 {A B C D E} (l1 : list A) (l2 : list B) (l3 : list C) (l4 : list D)
    (l5 : list E) : list (A * B * C * D * E) :=
  match l1, l2, l3, l4, l5 with
  | x1 :: r1, x2 :: r2, x3 :: r3, x4 :: r4, x5 :: r5 => (x1, x2, x3, x4, x5) :: zip5 r1 r2 r3 r4 r5
  | _, _, _, _, _ => []
  end.

(** The rows of a block, read back position by position. *)
Definition block_rows (cols : MutableColumns) : list (string * string * string * Z * Z) :=
  zip5 (col_database cols) (col_name cols) (col_engine cols)
    (col_metadata_modification_time cols) (col_temporary cols).

(** A block is well formed when its five columns have one length. *)
Definition columns_wf (cols : MutableColumns) : Prop :=
  length (col_name cols) = length (col_database cols) /\
  length (col_engine cols) = length (col_database cols) /\
  length (col_metadata_modification_time cols) = length (col_database cols) /\
  length (col_temporary cols) = length (col_database cols).

(** What identifies a listed table: its database, its name and whether
    it is temporary. *)
Definition stored_key (x : string * string * string * Z * Z) : string * string * Z :=
  match x with (d, t, _, _, tmp) => (d, t, tmp) end.

Definition insertRows (cols : MutableColumns) (rs : list Row) : MutableColumns :=
  fold_left insertRow rs cols.

(** ** A sample catalog

    Two databases, one table of which has a negative metadata time, and a
    session with one external table; [sample_dropped] sees the database
    [system] dropped between the listing and its lookup. *)

Definition sample_mtime (t : string) : Z := if decide (t = "hits") then 1500000000 else -1.

Definition sample_default : Database :=
  mkDatabase [("hits", mkTable "MergeTree"); ("visits", mkTable "Memory")] sample_mtime.

Definition sample_system : Database :=
  mkDatabase [("tables", mkTable "SystemTables")] (fun _ => 0).

Definition sample_context : Context :=
  mkContext [("default", sample_default); ("system", sample_system)]
    (Some [("tmp", mkTable "Memory")]).

Definition sample_all : SelectQuery := mkSelectQuery None.

Definition sample_default_only : SelectQuery :=
  mkSelectQuery (Some (fun n => bool_decide (n = "default"))).

Definition sample_dropped : Observed :=
  fun i => match i with
           | O => sample_context
           | S _ => mkContext [("default", sample_default)] (Some [("tmp", mkTable "Memory")])
           end.

(** Evaluate [read] on concrete inputs, naming its block [cols] and the
    equation [Hread]. *)
Ltac read_block cn q obs :=
  let cols := fresh "cols" in
  set (cols := insertRows cloneEmptyColumns (system_tables_rows q obs));
  assert (Hread : read cn q obs = Ok (FetchColumns, [mkBlock columns cols])) by reflexivity;
  exists cols; split; [exact Hread|].

(** ** The loops insert the specified rows *)

Lemma insertRows_eq cols rs :
  insertRows cols rs =
  mkColumns (col_database cols ++ map row_database rs)
    (col_name cols ++ map row_name rs)
    (col_engine cols ++ map row_engine rs)
    (col_metadata_modification_time cols
       ++ map (fun r => wrap UInt32 (row_metadata_modification_time r)) rs)
    (col_temporary cols ++ map (fun r => wrap UInt8 (row_temporary r)) rs).
Proof.
  unfold insertRows. revert cols.
  induction rs as [|r rs IH]; intros [d n e m t]; simpl.
  - by rewrite !app_nil_r.
  - rewrite IH. simpl. by rewrite <- !app_assoc.
Qed.

Lemma insertRows_app cols rs1 rs2 :
  insertRows cols (rs1 ++ rs2) = insertRows (insertRows cols rs1) rs2.
Proof. apply fold_left_app. Qed.

Lemma insertDatabaseTables_eq name db cols :
  insertDatabaseTables name db cols = insertRows cols (databaseRows name db).
Proof. unfold insertDatabaseTables, insertRows, databaseRows. by rewrite fold_left_map_fusion. Qed.

Lemma insertDatabase_eq c name cols :
  insertDatabase c name cols =
  insertRows cols (match tryGetDatabase c name with
                   | None => [] | Some db => databaseRows name db end).
Proof. unfold insertDatabase. destruct (tryGetDatabase c name); [apply insertDatabaseTables_eq | done]. Qed.

Lemma insertFilteredDatabases_eq obs i names cols :
  insertFilteredDatabases obs i names cols = insertRows cols (filteredDatabaseRows obs i names).
Proof.
  revert i cols. induction names as [|name names IH]; intros i cols; simpl; [done|].
  by rewrite IH, insertDatabase_eq, insertRows_app.
Qed.

(** The column of names is the list of the context's database names. *)
Lemma databasesColumn_eq c : databasesColumn c = keys (ctx_databases c).
Proof. unfold databasesColumn, keys. by rewrite (fold_left_snoc_map fst). Qed.

Lemma getFilteredDatabases_eq q c :
  getFilteredDatabases q c = filterBlockWithQuery q (keys (ctx_databases c)).
Proof. unfold getFilteredDatabases. by rewrite databasesColumn_eq. Qed.

(** The index loop from [row_number] is the reference loop over the
    names from position [row_number] on. *)
Lemma forFilteredDatabases_drop obs column row_number cols :
  forFilteredDatabases obs column row_number cols =
  insertFilteredDatabases obs row_number (drop row_number column) cols.
Proof.
  funelim (forFilteredDatabases obs column row_number cols).
  - destruct (lookup_lt_is_Some_2 column row_number Hlt) as [name Hname].
    rewrite (drop_S _ _ _ Hname). simpl. rewrite Hname in H |- *. exact H.
  - by rewrite drop_ge by lia.
Qed.

Lemma insertExternalTables_eq c cols :
  insertExternalTables c cols = insertRows cols (externalRows c).
Proof.
  unfold insertExternalTables, insertExternalTableRows, externalRows, insertRows.
  destruct (ctx_session c); [by rewrite fold_left_map_fusion | done].
Qed.

Lemma zip5_map {R A B C D E} (f1 : R -> A) (f2 : R -> B) (f3 : R -> C) (f4 : R -> D)
    (f5 : R -> E) (rs : list R) :
  zip5 (map f1 rs) (map f2 rs) (map f3 rs) (map f4 rs) (map f5 rs) =
  map (fun r => (f1 r, f2 r, f3 r, f4 r, f5 r)) rs.
Proof. induction rs; simpl; congruence. Qed.

Lemma columns_wf_insertRows cols rs :
  columns_wf cols -> columns_wf (insertRows cols rs).
Proof.
  rewrite insertRows_eq. unfold columns_wf. destruct cols; simpl.
  rewrite !length_app, !length_map. lia.
Qed.

Lemma In_databaseRows r name db :
  In r (databaseRows name db) <->
  exists t tbl, In (t, tbl) (db_tables db) /\ r = databaseTableRow name db t tbl.
Proof.
  unfold databaseRows. rewrite in_map_iff. split.
  - intros [[t tbl] [<- Hin]]. eauto.
  - intros (t & tbl & Hin & ->). by exists (t, tbl).
Qed.

(** A row of the database loop comes from the [j]-th filtered name,
    looked up by the [j]-th call of [tryGetDatabase]. *)
Lemma In_filteredDatabaseRows obs i names r :
  In r (filteredDatabaseRows obs i names) <->
  exists j name db, names !! j = Some name /\
    tryGetDatabase (obs (S (i + j))) name = Some db /\ In r (databaseRows name db).
Proof.
  revert i. induction names as [|name names IH]; intros i; simpl.
  - split; [done|]. intros (j & ? & ? & Hj & _). by rewrite lookup_nil in Hj.
  - rewrite in_app_iff, IH. split.
    + intros [Hr | (j & n & db & Hj & Hdb & Hr)].
      * destruct (tryGetDatabase _ name) as [db|] eqn:E; [|done].
        exists 0%nat, name, db. rewrite Nat.add_0_r. auto.
      * exists (S j), n, db. rewrite <- Nat.add_succ_comm. auto.
    + intros ([|j] & n & db & Hj & Hdb & Hr); simpl in Hj.
      * injection Hj as <-. left. rewrite Nat.add_0_r in Hdb. by rewrite Hdb.
      * right. exists j, n, db. rewrite Nat.add_succ_comm. auto.
Qed.

Lemma In_externalRows r c :
  In r (externalRows c) <->
  exists ext t tbl, ctx_session c = Some ext /\ In (t, tbl) ext /\ r = externalTableRow t tbl.
Proof.
  unfold externalRows. destruct (ctx_session c) as [ext|].
  - rewrite in_map_iff. split.
    + intros [[t tbl] [<- Hin]]. eauto 6.
    + intros (? & t & tbl & [= <-] & Hin & ->). by exists (t, tbl).
  - split; [done|]. by intros (? & ? & ? & ? & _).
Qed.

Lemma databaseRows_temporary name db :
  Forall (fun r => row_temporary r = 0) (databaseRows name db).
Proof. apply Forall_forall. intros r (? & ? & _ & ->)%In_databaseRows. done. Qed.

Lemma filteredDatabaseRows_temporary obs i names :
  Forall (fun r => row_temporary r = 0) (filteredDatabaseRows obs i names).
Proof.
  apply Forall_forall. intros r (j & n & db & _ & _ & Hr)%In_filteredDatabaseRows.
  exact (proj1 (Forall_forall _ _) (databaseRows_temporary n db) r Hr).
Qed.

Lemma externalRows_temporary c :
  Forall (fun r => row_temporary r = 1) (externalRows c).
Proof. apply Forall_forall. intros r (? & ? & ? & _ & _ & ->)%In_externalRows. done. Qed.

(** [read] is the column check followed by the insertion of the
    specified rows. *)
Lemma read_unfold column_names q obs :
  read column_names q obs =
  (check (keys columns) column_names ;;
   Ok (FetchColumns, [mkBlock columns (insertRows cloneEmptyColumns (system_tables_rows q obs))])).
Proof.
  unfold read. destruct (check (keys columns) column_names); cbn [mbind result_bind]; [|done].
  rewrite forFilteredDatabases_drop, drop_0.
  by rewrite insertExternalTables_eq, insertFilteredDatabases_eq, <- insertRows_app.
Qed.

Lemma filteredDatabaseRows_listing obs i names :
  map (fun r => (row_database r, row_name r)) (filteredDatabaseRows obs i names) =
  concat (imap (fun j name =>
    match tryGetDatabase (obs (S (i + j))) name with
    | Some db => map (fun t => (name, t)) (keys (db_tables db))
    | None => []
    end) names).
Proof.
  revert i. induction names as [|n names IH]; intros i; simpl; [done|].
  rewrite map_app, IH, Nat.add_0_r. f_equal.
  - destruct (tryGetDatabase _ n); [|done]. unfold databaseRows, keys. by rewrite !map_map.
  - f_equal. apply imap_ext. intros j x _. simpl. by rewrite Nat.add_succ_r.
Qed.

Lemma length_filteredDatabaseRows_stable c i names :
  length (filteredDatabaseRows (stable c) i names) =
  list_sum (map (fun name =>
    match tryGetDatabase c name with Some db => length (db_tables db) | None => O end) names).
Proof.
  revert i. induction names as [|n names IH]; intros i; simpl; [done|].
  rewrite length_app, IH. unfold stable. f_equal.
  destruct (tryGetDatabase c n); [apply length_map | done].
Qed.



Lemma stored_key_databaseRows name db :
  map (stored_key ∘ storedRow) (databaseRows name db) =
  map (fun t => (name, t, 0)) (keys (db_tables db)).
Proof. unfold databaseRows, keys. rewrite !map_map. by apply map_ext; intros [t tbl]. Qed.

Lemma stored_key_externalRows c :
  map (stored_key ∘ storedRow) (externalRows c) =
  match ctx_session c with
  | Some ext => map (fun t => ("", t, 1)) (keys ext)
  | None => []
  end.
Proof.
  unfold externalRows, keys. destruct (ctx_session c); [|done].
  rewrite !map_map. by apply map_ext; intros [t tbl].
Qed.

(** The database loop lists each (database, table) pair once, every
    pair with [temporary = 0] and a database of the list. *)
Lemma filteredDatabaseRows_distinct obs i names :
  NoDup names -> (forall j, context_wf (obs j)) ->
  NoDup (map (stored_key ∘ storedRow) (filteredDatabaseRows obs i names)) /\
  forall d t tmp, In (d, t, tmp) (map (stored_key ∘ storedRow) (filteredDatabaseRows obs i names)) ->
    d ∈ names /\ tmp = 0.
Proof.
  intros Hnd Hwf. revert i. induction Hnd as [|n names Hn Hnd IH]; intros i; simpl; [split; [constructor | done]|].
  destruct (IH (S i)) as [IHnd IHin]. rewrite map_app.
  assert (Hhead : NoDup (map (stored_key ∘ storedRow)
                    match tryGetDatabase (obs (S i)) n with Some db => databaseRows n db | None => [] end) /\
                  forall d t tmp, In (d, t, tmp) (map (stored_key ∘ storedRow)
                    match tryGetDatabase (obs (S i)) n with Some db => databaseRows n db | None => [] end) ->
                  d = n /\ tmp = 0).
  { destruct (tryGetDatabase (obs (S i)) n) as [db|] eqn:Edb; [|split; [constructor | done]].
    rewrite stored_key_databaseRows. split.
    - apply NoDup_map_inj; [by intros ?? [=] | exact (context_wf_tables _ _ _ (Hwf _) Edb)].
    - intros d t tmp (t' & [= -> _ ->] & _)%in_map_iff. done. }
  destruct Hhead as [Hhnd Hhin]. split.
  - apply list.NoDup_app. split_and!; [done | | done].
    intros [[d t] tmp] Hx%list_elem_of_In Hy%list_elem_of_In.
    destruct (Hhin _ _ _ Hx) as [-> _]. by destruct (IHin _ _ _ Hy) as [? _].
  - intros d t tmp [Hx | Hy]%in_app_iff.
    + destruct (Hhin _ _ _ Hx) as [-> ->]. split; [left | done].
    + destruct (IHin _ _ _ Hy) as [? ->]. split; [by right | done].
Qed.

Lemma getFilteredDatabases_NoDup q c :
  NoDup (keys (ctx_databases c)) -> NoDup (getFilteredDatabases q c).
Proof.
  intros Hnd. rewrite getFilteredDatabases_eq.
  eapply sublist_NoDup; [exact Hnd | apply filterBlockWithQuery_sublist].
Qed.

Lemma map_stored_key rs : map stored_key (map storedRow rs) = map (stored_key ∘ storedRow) rs.
Proof. apply map_map. Qed.

#[export] Hint Resolve columns_wf_insertRows databaseRows_temporary
  filteredDatabaseRows_temporary externalRows_temporary : dict.

(** ** Row-level facts *)

Lemma read_ok_inv column_names q obs stage blocks :
  read column_names q obs = Ok (stage, blocks) ->
  check (keys columns) column_names = Ok tt /\ stage = FetchColumns /\
  blocks = [mkBlock columns (insertRows cloneEmptyColumns (system_tables_rows q obs))].
Proof.
  rewrite read_unfold. destruct (check (keys columns) column_names) as [[]|]; cbn; [|done].
  by intros [= <- <-].
Qed.

Lemma read_block_rows column_names q obs stage cols :
  read column_names q obs = Ok (stage, [mkBlock columns cols]) ->
  block_rows cols = map storedRow (system_tables_rows q obs).
Proof. intros (_ & _ & [= ->])%read_ok_inv. rewrite insertRows_eq. apply zip5_map. Qed.

Lemma storedRow_databaseTableRow d db t tbl :
  storedRow (databaseTableRow d db t tbl) =
  (d, t, table_engine tbl, db_metadata_mtime db t mod 2 ^ 32, 0).
Proof.
  unfold storedRow. simpl. rewrite wrap_wrap_le by (unfold UInt32, UInt64; lia).
  reflexivity.
Qed.

Lemma storedRow_externalTableRow t tbl :
  storedRow (externalTableRow t tbl) = ("", t, table_engine tbl, 0, 1).
Proof. reflexivity. Qed.

(** In a catalog that does not change, the specified rows. *)
Lemma rows_stable_iff c q r :
  In r (system_tables_rows q (stable c)) <->
  (exists d db t tbl, d ∈ getFilteredDatabases q c /\ tryGetDatabase c d = Some db /\
     In (t, tbl) (db_tables db) /\ r = databaseTableRow d db t tbl) \/
  (exists ext t tbl, ctx_session c = Some ext /\ In (t, tbl) ext /\ r = externalTableRow t tbl).
Proof.
  unfold system_tables_rows. rewrite in_app_iff, In_filteredDatabaseRows, In_externalRows.
  split; intros [H|H]; [left | by right | left | by right].
  - destruct H as (j & d & db & Hj & Hdb & (t & tbl & Hin & ->)%In_databaseRows).
    exists d, db, t, tbl. split; [by eapply list_elem_of_lookup_2 | auto].
  - destruct H as (d & db & t & tbl & Hd & Hdb & Hin & ->).
    apply list_elem_of_lookup in Hd as [j Hj].
    exists j, d, db. do 2 (split; [done|]). apply In_databaseRows. eauto.
Qed.

(** A stored row with [temporary = 0] is the row of a table of the
    [j]-th filtered database, found by the [j]-th lookup. *)
Lemma stored_database_row q obs d t e m :
  In (d, t, e, m, 0) (map storedRow (system_tables_rows q obs)) ->
  exists j db tbl, getFilteredDatabases q (obs 0%nat) !! j = Some d /\
    tryGetDatabase (obs (S j)) d = Some db /\ In (t, tbl) (db_tables db) /\
    e = table_engine tbl.
Proof.
  rewrite in_map_iff. unfold system_tables_rows.
  intros (r & Hr & [Hin | Hin]%in_app_iff).
  - apply In_filteredDatabaseRows in Hin as (j & n & db & Hj & Hdb & (t' & tbl & Ht & ->)%In_databaseRows).
    rewrite storedRow_databaseTableRow in Hr. injection Hr as Hn Ht2 Hte Hm. subst.
    exists j, db, tbl. auto.
  - apply In_externalRows in Hin as (? & ? & tbl & _ & _ & ->).
    by rewrite storedRow_externalTableRow in Hr.
Qed.

(** ** Theorems *)

(** C1 (refinement): when the column check passes, [read] reaches the
    stage [FetchColumns] and returns one block, with the five declared
    columns as header whatever columns were asked for, holding exactly the
    rows of the specification [system_tables_rows], inserted in order. *)
Theorem read_returns_rows column_names q obs :
  check (keys columns) column_names = Ok tt ->
  read column_names q obs =
  Ok (FetchColumns, [mkBlock columns (insertRows cloneEmptyColumns (system_tables_rows q obs))]).
Proof. intros Hc. by rewrite read_unfold, Hc. Qed.

(** C2 (functional): in a catalog that does not change during [read],
    the block holds the row (d, t, e, m, 0) iff [d] is a database that
    passes the query's condition on [database] and has a table [t] of
    engine [e] and metadata time [m] modulo 2^32, and the row
    ("", t, e, 0, 1) iff the session has an external table [t] of engine
    [e]; external tables are listed whatever the condition. *)
Theorem read_lists_tables c q column_names stage cols :
  read column_names q (stable c) = Ok (stage, [mkBlock columns cols]) ->
  forall d t e m tmp,
  In (d, t, e, m, tmp) (block_rows cols) <->
  (tmp = 0 /\ d ∈ keys (ctx_databases c) /\
   (forall cond, query_database_condition q = Some cond -> cond d = true) /\
   exists db tbl, tryGetDatabase c d = Some db /\ In (t, tbl) (db_tables db) /\
     e = table_engine tbl /\ m = db_metadata_mtime db t mod 2 ^ 32) \/
  (tmp = 1 /\ d = "" /\ m = 0 /\
   exists ext tbl, ctx_session c = Some ext /\ In (t, tbl) ext /\ e = table_engine tbl).
Proof.
  intros Hread d t e m tmp.
  rewrite (read_block_rows _ _ _ _ _ Hread), in_map_iff. setoid_rewrite rows_stable_iff.
  split.
  - intros (r & Hr & [(d' & db & t' & tbl & Hd & Hdb & Hin & ->)
                     | (ext & t' & tbl & Hext & Hin & ->)]).
    + rewrite storedRow_databaseTableRow in Hr. injection Hr as <- <- <- <- <-.
      rewrite getFilteredDatabases_eq, elem_of_filterBlockWithQuery in Hd.
      destruct Hd as [Hk Hc]. left. eauto 10.
    + rewrite storedRow_externalTableRow in Hr. injection Hr as <- <- <- <- <-.
      right. eauto 10.
  - intros [(-> & Hk & Hc & db & tbl & Hdb & Hin & -> & ->)
           | (-> & -> & -> & ext & tbl & Hext & Hin & ->)].
    + exists (databaseTableRow d db t tbl). rewrite storedRow_databaseTableRow.
      split; [done|]. left. exists d, db, t, tbl.
      split; [by rewrite getFilteredDatabases_eq, elem_of_filterBlockWithQuery | auto].
    + exists (externalTableRow t tbl). split; [done|]. right. eauto 6.
Qed.

(** C3 (error): when the column check throws, [read] throws the same
    exception and lists nothing. *)
Theorem read_check_error column_names q obs e :
  check (keys columns) column_names = Err e -> read column_names q obs = Err e.
Proof. intros Hc. by rewrite read_unfold, Hc. Qed.

(** C4 (invariant): a block returned by [read] has its five columns of
    one length, the number of rows of the specification. *)
Theorem read_block_wf column_names q obs stage blocks :
  read column_names q obs = Ok (stage, blocks) ->
  exists cols, blocks = [mkBlock columns cols] /\ columns_wf cols /\
    length (col_database cols) = length (system_tables_rows q obs).
Proof.
  intros (_ & _ & ->)%read_ok_inv. eexists. split; [done|]. split.
  - apply columns_wf_insertRows. by repeat split.
  - rewrite insertRows_eq. apply length_map.
Qed.

(** C5 (safety, under concurrent DDL): whatever databases are created or
    dropped while [read] runs, a listed table (d, t, e, m, 0) was a table
    of engine [e] of [d] when [d] was looked up, and [d] was in the list
    taken at the start and passed the query's condition. *)
Theorem read_rows_observed column_names q obs stage cols :
  read column_names q obs = Ok (stage, [mkBlock columns cols]) ->
  forall d t e m, In (d, t, e, m, 0) (block_rows cols) ->
  d ∈ getFilteredDatabases q (obs 0%nat) /\
  exists j db tbl, tryGetDatabase (obs (S j)) d = Some db /\
    In (t, tbl) (db_tables db) /\ e = table_engine tbl.
Proof.
  intros Hread d t e m Hin. rewrite (read_block_rows _ _ _ _ _ Hread) in Hin.
  destruct (stored_database_row _ _ _ _ _ _ Hin) as (j & db & tbl & Hj & Hdb & Ht & He).
  split; [by eapply list_elem_of_lookup_2 | exists j, db, tbl; auto].
Qed.

(** C6 (safety): a database dropped between the listing and its lookup
    contributes no row to the block. *)
Theorem dropped_database_not_listed column_names q obs stage cols j name :
  read column_names q obs = Ok (stage, [mkBlock columns cols]) ->
  NoDup (keys (ctx_databases (obs 0%nat))) ->
  getFilteredDatabases q (obs 0%nat) !! j = Some name ->
  tryGetDatabase (obs (S j)) name = None ->
  forall t e m, ~ In (name, t, e, m, 0) (block_rows cols).
Proof.
  intros Hread Hnd Hj Hdrop t e m Hin. rewrite (read_block_rows _ _ _ _ _ Hread) in Hin.
  destruct (stored_database_row _ _ _ _ _ _ Hin) as (j' & db & tbl & Hj' & Hdb & _).
  assert (j' = j) as ->.
  { eapply NoDup_lookup; [by apply getFilteredDatabases_NoDup | done..]. }
  congruence.
Qed.

(** C7 (bounds): in a block returned by [read], every metadata time lies
    in [0, 2^32) (the 32-bit [DateTime] column) and every [temporary] is
    0 or 1. *)
Theorem read_columns_bounds column_names q obs stage cols :
  read column_names q obs = Ok (stage, [mkBlock columns cols]) ->
  Forall (fun x => 0 <= x < 2 ^ 32) (col_metadata_modification_time cols) /\
  Forall (fun x => x = 0 \/ x = 1) (col_temporary cols).
Proof.
  intros (_ & _ & [= ->])%read_ok_inv. rewrite insertRows_eq. simpl.
  split; apply List.Forall_forall; intros x (r & <- & Hr)%in_map_iff.
  - apply (wrap_range 32). lia.
  - unfold system_tables_rows in Hr. apply in_app_iff in Hr as [Hr|Hr].
    + left. rewrite (proj1 (List.Forall_forall _ _) (filteredDatabaseRows_temporary _ _ _) r Hr).
      reflexivity.
    + right. rewrite (proj1 (List.Forall_forall _ _) (externalRows_temporary _) r Hr).
      reflexivity.
Qed.

(** C8 (functional, order): the (database, name) pairs of the block are
    the tables of the filtered databases, in the order of the filtered
    list and of each database's iterator, followed by ("", name) for the
    external tables of the session. *)
Theorem read_rows_order column_names q obs stage cols :
  read column_names q obs = Ok (stage, [mkBlock columns cols]) ->
  let filtered := getFilteredDatabases q (obs 0%nat) in
  zip (col_database cols) (col_name cols) =
  (concat (imap (fun j name =>
     match tryGetDatabase (obs (S j)) name with
     | Some db => map (fun t => (name, t)) (keys (db_tables db))
     | None => []
     end) filtered)
   ++ match ctx_session (obs (S (length filtered))) with
      | Some ext => map (fun nt => ("", nt.1)) ext
      | None => []
      end)%list.
Proof.
  intros (_ & _ & [= ->])%read_ok_inv. rewrite insertRows_eq. simpl.
  rewrite zip_map_same. unfold system_tables_rows. rewrite map_app.
  rewrite (filteredDatabaseRows_listing obs 0). f_equal.
  unfold externalRows. destruct (ctx_session _); [by rewrite map_map | done].
Qed.

(** C9 (functional): in a catalog that does not change, the block has
    as many rows as the filtered databases have tables, plus the external
    tables of the session. *)
Theorem read_rows_count column_names q c stage cols :
  read column_names q (stable c) = Ok (stage, [mkBlock columns cols]) ->
  length (col_name cols) =
  (list_sum (map (fun name =>
     match tryGetDatabase c name with Some db => length (db_tables db) | None => O end)
     (getFilteredDatabases q c))
   + match ctx_session c with Some ext => length ext | None => O end)%nat.
Proof.
  intros (_ & _ & [= ->])%read_ok_inv. rewrite insertRows_eq. simpl.
  rewrite length_map. unfold system_tables_rows.
  rewrite length_app, length_filteredDatabaseRows_stable. f_equal.
  unfold externalRows, stable. destruct (ctx_session c); [apply length_map | done].
Qed.

(** C10 (functional, errors): the column check passes iff the queried
    list is not empty, names declared columns only, and names each once;
    otherwise [read] throws (C3). *)
Theorem check_ok column_names :
  check (keys columns) column_names = Ok tt <->
  column_names <> [] /\ NoDup column_names /\ Forall (fun n => n ∈ keys columns) column_names.
Proof.
  destruct column_names as [|n ns]; [naive_solver|].
  unfold check. rewrite check_names_ok.
  split; [intros (Ha & Hnd & _) | intros (_ & Hnd & Ha)]; auto with dict.
Qed.

(** C16 (error, order): the column check reports the first offending
    name of the list, whatever follows it: after a prefix of distinct
    declared columns, a name that is no column is reported as
    [NO_SUCH_COLUMN_IN_TABLE], and a column of the prefix queried again as
    [COLUMN_QUERIED_MORE_THAN_ONCE]. *)
Theorem check_first_error pre n post :
  NoDup pre -> Forall (fun m => m ∈ keys columns) pre ->
  (n ∉ keys columns -> check (keys columns) (pre ++ n :: post) = Err (NO_SUCH_COLUMN_IN_TABLE n)) /\
  (n ∈ pre -> check (keys columns) (pre ++ n :: post) = Err (COLUMN_QUERIED_MORE_THAN_ONCE n)).
Proof.
  intros Hnd Ha.
  assert (Hc : check (keys columns) (pre ++ n :: post) = check_names (keys columns) (rev pre) (n :: post)).
  { destruct pre as [|m pre]; [done|].
    change (check (keys columns) ((m :: pre) ++ n :: post))
      with (check_names (keys columns) [] ((m :: pre) ++ n :: post)).
    rewrite check_names_app by auto with dict. by rewrite app_nil_r. }
  rewrite Hc. cbn [check_names]. split; intros Hn.
  - by rewrite decide_False.
  - rewrite Forall_forall in Ha. specialize (Ha n (proj1 (list_elem_of_In _ _) Hn)).
    case_decide; [|done]. case_decide as Hr; [done|].
    exfalso. apply Hr. rewrite list_elem_of_In, <- in_rev. by apply list_elem_of_In.
Qed.

(** C17 (safety, under concurrent DDL): no table is listed twice: the
    (database, name, temporary) triples of the block are distinct,
    whatever databases are created or dropped while [read] runs, when
    each observed catalog has distinct names in each of its maps (as
    [std::map]s have). *)
Theorem read_rows_distinct column_names q obs stage cols :
  read column_names q obs = Ok (stage, [mkBlock columns cols]) ->
  (forall j, context_wf (obs j)) ->
  NoDup (map stored_key (block_rows cols)).
Proof.
  intros Hread Hwf. rewrite (read_block_rows _ _ _ _ _ Hread), map_stored_key.
  unfold system_tables_rows. rewrite map_app, stored_key_externalRows.
  destruct (filteredDatabaseRows_distinct obs 0 (getFilteredDatabases q (obs 0%nat)))
    as [Hdb Hin]; [apply getFilteredDatabases_NoDup, (Hwf 0%nat) | done |].
  destruct (Hwf (S (length (getFilteredDatabases q (obs 0%nat))))) as (_ & _ & Hext).
  destruct (ctx_session _) as [ext|]; [|by rewrite app_nil_r].
  apply list.NoDup_app. split_and!; [done | | by apply NoDup_map_inj; [intros ?? [=]|]].
  intros [[d t] tmp] Hx%list_elem_of_In (t' & [= _ _ <-] & _)%list_elem_of_In%in_map_iff.
  by destruct (Hin _ _ _ Hx).
Qed.

(** C18 (termination): the loop over the filtered databases stops: from
    [row_number] it runs exactly [size() - row_number] iterations, the
    body once for each row number from [row_number] on, in increasing
    order, and then returns. *)
Theorem forFilteredDatabases_iterations obs column row_number cols :
  forFilteredDatabases obs column row_number cols =
  fold_left (fun cols j => insertDatabase (obs (S j)) (default "" (column !! j)) cols)
    (seq row_number (length column - row_number)) cols.
Proof.
  funelim (forFilteredDatabases obs column row_number cols).
  - rewrite H. by replace (length column - row_number)%nat
                 with (S (length column - S row_number)) by lia.
  - by replace (length column - row_number)%nat with 0%nat by lia.
Qed.

(** C19 (equivalence): the index loop as the code writes it inserts
    exactly the rows of the specification, in order: for each listed
    name, the tables of the database its lookup returns, nothing for a
    database dropped meanwhile. *)
Theorem forFilteredDatabases_rows obs column cols :
  forFilteredDatabases obs column 0 cols = insertRows cols (filteredDatabaseRows obs 0 column).
Proof. by rewrite forFilteredDatabases_drop, drop_0, insertFilteredDatabases_eq. Qed.

(** C20 (functional, boundary): when the listing finds no database, the
    block holds the external tables of the session only, and with no
    session it is the five declared columns, all empty. *)
Theorem read_empty_catalog column_names q obs stage cols :
  read column_names q obs = Ok (stage, [mkBlock columns cols]) ->
  ctx_databases (obs 0%nat) = [] ->
  block_rows cols = map storedRow (externalRows (obs 1%nat)) /\
  (ctx_session (obs 1%nat) = None -> cols = cloneEmptyColumns).
Proof.
  intros Hread Hnil.
  assert (Hf : getFilteredDatabases q (obs 0%nat) = []).
  { rewrite getFilteredDatabases_eq, Hnil. unfold filterBlockWithQuery.
    by destruct (query_database_condition q). }
  assert (Hrows : system_tables_rows q obs = externalRows (obs 1%nat))
    by (unfold system_tables_rows; by rewrite Hf).
  split; [by rewrite (read_block_rows _ _ _ _ _ Hread), Hrows|].
  intros Hs. apply read_ok_inv in Hread as (_ & _ & [= ->]).
  rewrite Hrows. unfold externalRows. by rewrite Hs.
Qed.

(** ** Witnesses *)

Lemma read_returns_rows_witness :
  check (keys columns) ["name"; "engine"] = Ok tt /\
  read ["name"; "engine"] sample_default_only (stable sample_context) =
  Ok (FetchColumns, [mkBlock columns
    (insertRows cloneEmptyColumns (system_tables_rows sample_default_only (stable sample_context)))]).
Proof. split; [reflexivity | apply read_returns_rows; reflexivity]. Defined.

Lemma read_lists_tables_witness :
  exists cols,
    read ["name"] sample_default_only (stable sample_context) =
      Ok (FetchColumns, [mkBlock columns cols]) /\
    In ("default", "hits", "MergeTree", 1500000000, 0) (block_rows cols) /\
    In ("", "tmp", "Memory", 0, 1) (block_rows cols).
Proof.
  read_block ["name"] sample_default_only (stable sample_context). split.
  - apply (read_lists_tables _ _ _ _ _ Hread). left.
    split_and!; [reflexivity | by_decision | intros cond [= <-]; reflexivity |].
    exists sample_default, (mkTable "MergeTree").
    split_and!; [reflexivity | left; reflexivity | reflexivity | reflexivity].
  - apply (read_lists_tables _ _ _ _ _ Hread). right.
    split_and!; [reflexivity | reflexivity | reflexivity |].
    exists [("tmp", mkTable "Memory")], (mkTable "Memory").
    split_and!; [reflexivity | left; reflexivity | reflexivity].
Defined.

Lemma read_check_error_witness :
  check (keys columns) ["name"; "name"] = Err (COLUMN_QUERIED_MORE_THAN_ONCE "name") /\
  read ["name"; "name"] sample_all (stable sample_context) =
  Err (COLUMN_QUERIED_MORE_THAN_ONCE "name").
Proof. split; [reflexivity | apply read_check_error; reflexivity]. Defined.

Lemma read_block_wf_witness :
  exists stage blocks,
    read ["database"] sample_all sample_dropped = Ok (stage, blocks) /\
    exists cols, blocks = [mkBlock columns cols] /\ columns_wf cols /\
      length (col_database cols) = length (system_tables_rows sample_all sample_dropped).
Proof.
  eexists FetchColumns, _. split; [reflexivity|].
  eapply (read_block_wf ["database"] sample_all sample_dropped FetchColumns). reflexivity.
Defined.

Lemma read_rows_observed_witness :
  exists cols,
    read ["name"] sample_all sample_dropped = Ok (FetchColumns, [mkBlock columns cols]) /\
    In ("default", "hits", "MergeTree", 1500000000, 0) (block_rows cols) /\
    "default" ∈ getFilteredDatabases sample_all (sample_dropped 0%nat) /\
    exists j db tbl, tryGetDatabase (sample_dropped (S j)) "default" = Some db /\
      In ("hits", tbl) (db_tables db) /\ "MergeTree" = table_engine tbl.
Proof.
  read_block ["name"] sample_all sample_dropped.
  assert (Hin : In ("default", "hits", "MergeTree", 1500000000, 0) (block_rows cols))
    by (apply list_elem_of_In; by_decision).
  split; [exact Hin|]. exact (read_rows_observed _ _ _ _ _ Hread _ _ _ _ Hin).
Defined.

Lemma dropped_database_not_listed_witness :
  exists cols,
    read ["name"] sample_all sample_dropped = Ok (FetchColumns, [mkBlock columns cols]) /\
    NoDup (keys (ctx_databases (sample_dropped 0%nat))) /\
    getFilteredDatabases sample_all (sample_dropped 0%nat) !! 1%nat = Some "system" /\
    tryGetDatabase (sample_dropped 2%nat) "system" = None /\
    forall t e m, ~ In ("system", t, e, m, 0) (block_rows cols).
Proof.
  read_block ["name"] sample_all sample_dropped.
  assert (Hnd : NoDup (keys (ctx_databases (sample_dropped 0%nat)))) by by_decision.
  split; [exact Hnd|]. split; [reflexivity|]. split; [reflexivity|].
  apply (dropped_database_not_listed _ _ _ _ _ 1 "system" Hread Hnd); reflexivity.
Defined.

(** The table whose metadata time is [-1] shows 4294967295. *)
Lemma read_columns_bounds_witness :
  exists cols,
    read ["name"] sample_all (stable sample_context) = Ok (FetchColumns, [mkBlock columns cols]) /\
    In 4294967295 (col_metadata_modification_time cols) /\
    Forall (fun x => 0 <= x < 2 ^ 32) (col_metadata_modification_time cols) /\
    Forall (fun x => x = 0 \/ x = 1) (col_temporary cols).
Proof.
  read_block ["name"] sample_all (stable sample_context).
  split; [apply list_elem_of_In; by_decision|].
  exact (read_columns_bounds _ _ _ _ _ Hread).
Defined.

Lemma read_rows_order_witness :
  exists cols,
    read ["name"] sample_all sample_dropped = Ok (FetchColumns, [mkBlock columns cols]) /\
    zip (col_database cols) (col_name cols) =
      [("default", "hits"); ("default", "visits"); ("", "tmp")].
Proof.
  read_block ["name"] sample_all sample_dropped.
  pose proof (read_rows_order _ _ _ _ _ Hread) as Horder. cbv zeta in Horder.
  rewrite Horder. reflexivity.
Defined.

Lemma read_rows_count_witness :
  exists cols,
    read ["name"] sample_all (stable sample_context) = Ok (FetchColumns, [mkBlock columns cols]) /\
    length (col_name cols) = 4%nat.
Proof.
  read_block ["name"] sample_all (stable sample_context).
  rewrite (read_rows_count _ _ _ _ _ Hread). reflexivity.
Defined.

(** ["engine"; "uuid"; "engine"]: "uuid" is reported, not the repeat;
    ["name"; "name"; "uuid"]: the repeat is reported. *)
Lemma check_first_error_witness :
  NoDup ["engine"] /\ Forall (fun m => m ∈ keys columns) ["engine"] /\
  check (keys columns) ["engine"; "uuid"; "engine"] = Err (NO_SUCH_COLUMN_IN_TABLE "uuid") /\
  NoDup ["name"] /\ Forall (fun m => m ∈ keys columns) ["name"] /\
  check (keys columns) ["name"; "name"; "uuid"] = Err (COLUMN_QUERIED_MORE_THAN_ONCE "name").
Proof.
  assert (H1 : NoDup ["engine"]) by by_decision.
  assert (H2 : Forall (fun m => m ∈ keys columns) ["engine"]) by by_decision.
  assert (H3 : NoDup ["name"]) by by_decision.
  assert (H4 : Forall (fun m => m ∈ keys columns) ["name"]) by by_decision.
  split_and!; [exact H1 | exact H2 | | exact H3 | exact H4 |].
  - apply (check_first_error ["engine"] "uuid" ["engine"] H1 H2). by_decision.
  - apply (check_first_error ["name"] "name" ["uuid"] H3 H4). by_decision.
Defined.

(** The database [system] is dropped during [read]: the block lists
    each of its remaining tables once. *)
Lemma read_rows_distinct_witness :
  exists cols,
    read ["name"] sample_all sample_dropped = Ok (FetchColumns, [mkBlock columns cols]) /\
    (forall j, context_wf (sample_dropped j)) /\
    NoDup (map stored_key (block_rows cols)).
Proof.
  read_block ["name"] sample_all sample_dropped.
  assert (Hwf : forall j, context_wf (sample_dropped j))
    by (intros [|j]; unfold context_wf; simpl; split_and!; by_decision).
  split; [exact Hwf | exact (read_rows_distinct _ _ _ _ _ Hread Hwf)].
Defined.

(** A server with no database and no session answers with an empty
    block. *)
Lemma read_empty_catalog_witness :
  exists cols,
    read ["name"] sample_all (stable (mkContext [] None)) =
      Ok (FetchColumns, [mkBlock columns cols]) /\
    ctx_databases (stable (mkContext [] None) 0%nat) = [] /\
    ctx_session (stable (mkContext [] None) 1%nat) = None /\ cols = cloneEmptyColumns.
Proof.
  read_block ["name"] sample_all (stable (mkContext [] None)).
  assert (Hnil : ctx_databases (stable (mkContext [] None) 0%nat) = []) by reflexivity.
  assert (Hs : ctx_session (stable (mkContext [] None) 1%nat) = None) by reflexivity.
  split_and!; [exact Hnil | exact Hs |].
  exact (proj2 (read_empty_catalog _ _ _ _ _ Hread Hnil) Hs).
Defined.

End SystemTables.
