(* ===== verification/Registry.v ===== *)
(** * Registry: the dictionary and dictionary-source factories

    [DictionaryFactory] and [DictionarySourceFactory] map a type name
    ("flat", "file", ...) to the creator registered under it.  Their code
    is outside [src/]; it is modelled from the spec's registry contract
    (register once per name, create by name, [UnknownKind] for a name
    that is not registered).

    The contract is the interface [FactoryOps] with its laws
    [FactoryLaws]: [Registration] proves its theorems against them, and
    the instance on [gmap string] (the [std::unordered_map] of the
    factories) discharges them. *)

From S2P Require Import Prelude.
From stdpp Require Import gmap.

Module Registry.

(** A factory of creators of type [C]: the empty factory,
    [registerLayout]/[registerSource], and the lookup of [create].  A
    name registered twice throws [LOGICAL_ERROR]; creating from an unknown
    type name throws [UNKNOWN_ELEMENT_IN_CONFIG]. *)
Class FactoryOps (F : Type -> Type) := {
  factory_empty {C} : F C;
  registerCreator {C} : string -> C -> F C -> result ErrorCode (F C);
  create {C} : string -> F C -> result ErrorCode C
}.

(** What a factory promises. *)
Class FactoryLaws (F : Type -> Type) `{!FactoryOps F} : Prop := {
  create_empty {C} name :
    create name (factory_empty (C:=C)) = Err (UNKNOWN_ELEMENT_IN_CONFIG name);
  create_cases {C} name (f : F C) :
    (exists c, create name f = Ok c) \/ create name f = Err (UNKNOWN_ELEMENT_IN_CONFIG name);
  register_taken {C} name (c c' : C) f :
    create name f = Ok c' -> registerCreator name c f = Err (LOGICAL_ERROR name);
  register_fresh {C} name (c : C) f :
    create name f = Err (UNKNOWN_ELEMENT_IN_CONFIG name) ->
    exists f', registerCreator name c f = Ok f' /\
      create name f' = Ok c /\ (forall n, n <> name -> create n f' = create n f)
}.

(** The factories keep their creators in a hash map by name. *)
#[export] Instance gmap_factory_ops : FactoryOps (gmap string) := {|
  factory_empty C := ∅;
  registerCreator C name c f :=
    match f !! name with
    | Some _ => Err (LOGICAL_ERROR name)
    | None => Ok (<[name := c]> f)
    end;
  create C name f :=
    match f !! name with
    | Some c => Ok c
    | None => Err (UNKNOWN_ELEMENT_IN_CONFIG name)
    end
|}.

#[export] Instance gmap_factory_laws : FactoryLaws (gmap string).
Proof.
  split; cbn.
  - intros C name. by rewrite lookup_empty.
  - intros C name f. destruct (f !! name); eauto.
  - intros C name c c' f. by destruct (f !! name).
  - intros C name c f. destruct (f !! name) eqn:E; [done|]. intros _.
    eexists. split; [done|]. rewrite lookup_insert_eq. split; [done|].
    intros n Hn. by rewrite lookup_insert_ne by congruence.
Qed.

End Registry.
