(* ===== verification/Registration.v ===== *)
(** * Registration: [registerDictionaries]

    [src/dbms/src/Dictionaries/registerDictionaries.cpp]: at start-up the
    server registers ten dictionary sources into the singleton
    [DictionarySourceFactory], then eight dictionary layouts into the
    singleton [DictionaryFactory].  Each [registerDictionary<X>] call
    registers one creator under its type name; a name registered twice
    throws, and the exception leaves the registrations made before it in
    place.  The factories are reached through the [Registry] interface,
    so the theorems hold for any factory satisfying its laws. *)

From S2P Require Import Prelude Registry.
From stdpp Require Import gmap.

Module Registration.
Import Registry.
Local Open Scope string_scope.

(** ** Data *)

(** The sources registered by the first block, one constructor per
    [registerDictionarySource<X>] call. *)
Inductive SourceKind :=
  | SourceFile | SourceMysql | SourceClickHouse | SourceMongoDB | SourceRedis
  | SourceXDBC | SourceJDBC | SourceExecutable | SourceHTTP | SourceLibrary.

(** The layouts registered by the second block, one constructor per
    [registerDictionary<X>] call. *)
Inductive LayoutKind :=
  | RangeHashed | ComplexKeyHashed | ComplexKeyCache | Trie
  | Flat | Hashed | Cache | Polygon.

(** The type name under which each [registerDictionarySource<X>]
    registers its creator (the name of the source's element in the
    dictionary's configuration). *)
Definition source_type_name (k : SourceKind) : string :=
  match k with
  | SourceFile => "file"
  | SourceMysql => "mysql"
  | SourceClickHouse => "clickhouse"
  | SourceMongoDB => "mongodb"
  | SourceRedis => "redis"
  | SourceXDBC => "odbc"
  | SourceJDBC => "jdbc"
  | SourceExecutable => "executable"
  | SourceHTTP => "http"
  | SourceLibrary => "library"
  end.

(** The type name under which each [registerDictionary<X>] registers its
    layout (the element under [layout] in the configuration). *)
Definition layout_type_name (k : LayoutKind) : string :=
  match k with
  | RangeHashed => "range_hashed"
  | ComplexKeyHashed => "complex_key_hashed"
  | ComplexKeyCache => "complex_key_cache"
  | Trie => "ip_trie"
  | Flat => "flat"
  | Hashed => "hashed"
  | Cache => "cache"
  | Polygon => "polygon"
  end.

(** The order of the calls of the first block. *)
Definition source_registrations : list SourceKind :=
  [SourceFile; SourceMysql; SourceClickHouse; SourceMongoDB; SourceRedis;
   SourceXDBC; SourceJDBC; SourceExecutable; SourceHTTP; SourceLibrary].

(** The order of the calls of the second block. *)
Definition layout_registrations : list LayoutKind :=
  [RangeHashed; ComplexKeyHashed; ComplexKeyCache; Trie; Flat; Hashed; Cache; Polygon].

(** The two singletons. *)
Record Factories (F : Type -> Type) := mkFactories {
  source_factory : F SourceKind;
  layout_factory : F LayoutKind
}.
Arguments mkFactories {F} _ _.
Arguments source_factory {F} _.
Arguments layout_factory {F} _.

Section WithFactory.
Context {F : Type -> Type} `{!FactoryOps F}.

(** A block of registration calls, in order: the first exception ends the
    block and the factory keeps what was registered before it. *)
Fixpoint registerAll {C} (name : C -> string) (ks : list C) (f : F C)
    : F C * option ErrorCode :=
  match ks with
  | [] => (f, None)
  | k :: rest =>
      match registerCreator (name k) k f with
      | Ok f' => registerAll name rest f'
      | Err e => (f, Some e)
      end
  end.

(** The first block: the ten sources, in the order of the code. *)
Definition registerSources (f : F SourceKind) : F SourceKind * option ErrorCode :=
  registerAll source_type_name source_registrations f.

(** The second block: the eight layouts, in the order of the code. *)
Definition registerLayouts (f : F LayoutKind) : F LayoutKind * option ErrorCode :=
  registerAll layout_type_name layout_registrations f.

(** [registerDictionaries]: the sources, then the layouts; an exception in
    the first block skips the second. *)
Definition registerDictionaries (st : Factories F) : Factories F * option ErrorCode :=
  let (sf, e) := registerSources (source_factory st) in
  match e with
  | Some e => (mkFactories sf (layout_factory st), Some e)
  | None =>
      let (lf, e') := registerLayouts (layout_factory st) in
      (mkFactories sf lf, e')
  end.

(** The dictionary's source is created before its layout is looked up. *)
Definition createDictionary (st : Factories F) (source_type layout_type : string)
    : result ErrorCode (LayoutKind * SourceKind) :=
  source ← create source_type (source_factory st);
  layout ← create layout_type (layout_factory st);
  Ok (layout, source).

End WithFactory.

(** The reference registry of a block of registrations: a type name
    creates the first registration with that name, and any other name is
    unknown. *)
Definition registered {C} (name : C -> string) (regs : list C) (n : string)
    : result ErrorCode C :=
  match List.find (fun k => bool_decide (name k = n)) regs with
  | Some k => Ok k
  | None => Err (UNKNOWN_ELEMENT_IN_CONFIG n)
  end.

Definition empty_factories {F} `{!FactoryOps F} : Factories F :=
  mkFactories factory_empty factory_empty.

(** ** Lemmas *)

Lemma source_registrations_complete k : In k source_registrations.
Proof. destruct k; simpl; tauto. Qed.

Lemma layout_registrations_complete k : In k layout_registrations.
Proof. destruct k; simpl; tauto. Qed.

Lemma source_names_NoDup : NoDup (map source_type_name source_registrations).
Proof. by_decision. Qed.

Lemma layout_names_NoDup : NoDup (map layout_type_name layout_registrations).
Proof. by_decision. Qed.

Lemma find_name_In {C} (name : C -> string) (ks : list C) k :
  NoDup (map name ks) -> In k ks ->
  List.find (fun k' => bool_decide (name k' = name k)) ks = Some k.
Proof.
  induction ks as [|k' ks IH]; simpl; [done|].
  intros [Hk' Hnd]%list.NoDup_cons [<- | Hin]; [by rewrite bool_decide_true|].
  rewrite bool_decide_false; [auto|].
  intros Heq. apply Hk'. rewrite Heq. apply list_elem_of_In, in_map, Hin.
Qed.

Lemma find_name_not_In {C} (name : C -> string) (ks : list C) n :
  n ∉ map name ks -> List.find (fun k => bool_decide (name k = n)) ks = None.
Proof.
  induction ks as [|k ks IH]; simpl; [done|].
  intros [Hn Hks]%not_elem_of_cons. rewrite bool_decide_false; auto.
Qed.

Section Laws.
Context {F : Type -> Type} `{!FactoryOps F} `{!FactoryLaws F}.

(** A block of distinct names, none registered yet, raises nothing and
    registers each creator under its name, leaving other names as they
    were. *)
Lemma registerAll_ok {C} (name : C -> string) (ks : list C) (f : F C) :
  NoDup (map name ks) ->
  Forall (fun k => create (name k) f = Err (UNKNOWN_ELEMENT_IN_CONFIG (name k))) ks ->
  exists f', registerAll name ks f = (f', None) /\
    (forall k, In k ks -> create (name k) f' = Ok k) /\
    (forall n, n ∉ map name ks -> create n f' = create n f).
Proof.
  revert f. induction ks as [|k ks IH]; intros f Hnd Hfresh; simpl.
  - exists f. naive_solver.
  - apply list.NoDup_cons in Hnd as [Hk Hnd]. apply Forall_cons_iff in Hfresh as [Hkf Hfresh].
    destruct (register_fresh (name k) k f Hkf) as (f1 & -> & Hc1 & Hne1).
    destruct (IH f1) as (f' & Hreg & Hin & Hout); [done| |].
    { apply List.Forall_forall. intros k' Hk'. rewrite Hne1; [exact (proj1 (List.Forall_forall _ _) Hfresh k' Hk')|].
      intros Heq. apply Hk. rewrite <- Heq. apply list_elem_of_In, in_map, Hk'. }
    exists f'. split; [done|]. split.
    + intros k' [<- | Hk']; [by rewrite Hout | auto].
    + intros n [Hn1 Hn2]%not_elem_of_cons. rewrite Hout, Hne1; auto.
Qed.

(** A block whose first name is taken throws at once, changing nothing. *)
Lemma registerAll_taken {C} (name : C -> string) k ks (f : F C) c' :
  create (name k) f = Ok c' ->
  registerAll name (k :: ks) f = (f, Some (LOGICAL_ERROR (name k))).
Proof. intros Hc. simpl. by rewrite (register_taken (name k) k c' f Hc). Qed.

Lemma registerAll_app {C} (name : C -> string) ks1 ks2 (f : F C) :
  registerAll name (ks1 ++ ks2) f =
  let (f1, e) := registerAll name ks1 f in
  match e with None => registerAll name ks2 f1 | Some e => (f1, Some e) end.
Proof.
  revert f. induction ks1 as [|k ks1 IH]; intros f; simpl; [done|].
  destruct (registerCreator (name k) k f); [apply IH | done].
Qed.

Lemma fresh_in_empty {C} (name : C -> string) ks :
  Forall (fun k => create (name k) (factory_empty (C:=C) (F:=F)) =
                   Err (UNKNOWN_ELEMENT_IN_CONFIG (name k))) ks.
Proof. apply Forall_forall. intros k _. apply create_empty. Qed.

Lemma not_elem_of_names {C} (name : C -> string) (regs : list C) n :
  (forall k, n <> name k) -> n ∉ map name regs.
Proof. intros Hn (k & Hk & _)%list_elem_of_In%in_map_iff. by apply (Hn k). Qed.

(** A factory that creates exactly the creators of a block, each by its
    name, is the reference registry of the block. *)
Lemma create_registered {C} (name : C -> string) (regs : list C) (f : F C) :
  NoDup (map name regs) ->
  (forall k, In k regs -> create (name k) f = Ok k) ->
  (forall n, n ∉ map name regs -> create n f = Err (UNKNOWN_ELEMENT_IN_CONFIG n)) ->
  forall n, create n f = registered name regs n.
Proof.
  intros Hnd Hin Hout n. unfold registered.
  destruct (decide (n ∈ map name regs)) as [(k & <- & Hk)%list_elem_of_In%in_map_iff|Hn].
  - by rewrite (find_name_In name regs k Hnd Hk), Hin.
  - by rewrite find_name_not_In, Hout.
Qed.

(** Registration into empty factories, case by case. *)
Lemma registerDictionaries_empty :
  exists st, registerDictionaries (F:=F) empty_factories = (st, None) /\
    (forall k, create (source_type_name k) (source_factory st) = Ok k) /\
    (forall n, n ∉ map source_type_name source_registrations ->
       create n (source_factory st) = Err (UNKNOWN_ELEMENT_IN_CONFIG n)) /\
    (forall k, create (layout_type_name k) (layout_factory st) = Ok k) /\
    (forall n, n ∉ map layout_type_name layout_registrations ->
       create n (layout_factory st) = Err (UNKNOWN_ELEMENT_IN_CONFIG n)).
Proof.
  destruct (registerAll_ok source_type_name source_registrations factory_empty
              source_names_NoDup (fresh_in_empty _ _)) as (sf & Hs & Hsin & Hsout).
  destruct (registerAll_ok layout_type_name layout_registrations factory_empty
              layout_names_NoDup (fresh_in_empty _ _)) as (lf & Hl & Hlin & Hlout).
  exists (mkFactories sf lf).
  unfold registerDictionaries, registerSources, registerLayouts, empty_factories.
  cbn [source_factory layout_factory]. rewrite Hs, Hl.
  split_and!; [done | | | |]; simpl.
  - intros k. apply Hsin, source_registrations_complete.
  - intros n Hn. rewrite Hsout by done. apply create_empty.
  - intros k. apply Hlin, layout_registrations_complete.
  - intros n Hn. rewrite Hlout by done. apply create_empty.
Qed.

(** ** Theorems *)

(** C11 (functional, roundtrip): registering into empty factories throws
    nothing, and afterwards every one of the ten sources and eight
    layouts is created by its type name. *)
Theorem registerDictionaries_creates :
  exists st, registerDictionaries (F:=F) empty_factories = (st, None) /\
    (forall k, create (source_type_name k) (source_factory st) = Ok k) /\
    (forall k, create (layout_type_name k) (layout_factory st) = Ok k).
Proof. destruct registerDictionaries_empty as (st & ? & ? & _ & ? & _). eauto. Qed.

(** C12 (error): registration is not idempotent: a second call throws
    [LOGICAL_ERROR] on its first name, "file", and leaves both factories
    as they were. *)
Theorem registerDictionaries_twice st :
  registerDictionaries (F:=F) empty_factories = (st, None) ->
  registerDictionaries st = (st, Some (LOGICAL_ERROR "file")).
Proof.
  destruct registerDictionaries_empty as (st' & Hreg & Hs & _).
  rewrite Hreg. intros [= <-].
  unfold registerDictionaries, registerSources, source_registrations.
  rewrite (registerAll_taken source_type_name SourceFile _ _ SourceFile (Hs SourceFile)).
  by destruct st'.
Qed.

(** C13 (functional, errors in order): after registration a dictionary
    is created from any registered source and layout names, and an
    unknown source name is reported before the layout is looked at. *)
Theorem createDictionary_registered st :
  registerDictionaries (F:=F) empty_factories = (st, None) ->
  (forall s l, createDictionary st (source_type_name s) (layout_type_name l) = Ok (l, s)) /\
  (forall n layout_type, (forall k, n <> source_type_name k) ->
     createDictionary st n layout_type = Err (UNKNOWN_ELEMENT_IN_CONFIG n)) /\
  (forall s n, (forall k, n <> layout_type_name k) ->
     createDictionary st (source_type_name s) n = Err (UNKNOWN_ELEMENT_IN_CONFIG n)).
Proof.
  destruct registerDictionaries_empty as (st' & Hreg & Hs & Hsu & Hl & Hlu).
  rewrite Hreg. intros [= <-]. unfold createDictionary.
  split_and!.
  - intros s l. by rewrite Hs, Hl.
  - intros n lt Hn. by rewrite Hsu by (by apply not_elem_of_names).
  - intros s n Hn. by rewrite Hs, Hlu by (by apply not_elem_of_names).
Qed.

(** C14 (error, partial state): a block whose [k]-th name is already
    registered throws [LOGICAL_ERROR] on it; the creators registered before
    it stay registered (the exception does not roll them back) and the
    names after it are not registered. *)
Theorem registerAll_exception_keeps_prefix {C} (name : C -> string) ks1 k ks2 (f : F C) c' :
  NoDup (map name ks1) ->
  Forall (fun k' => create (name k') f = Err (UNKNOWN_ELEMENT_IN_CONFIG (name k'))) ks1 ->
  name k ∉ map name ks1 -> create (name k) f = Ok c' ->
  exists f', registerAll name (ks1 ++ k :: ks2) f = (f', Some (LOGICAL_ERROR (name k))) /\
    (forall k', In k' ks1 -> create (name k') f' = Ok k') /\
    (forall n, n ∉ map name ks1 -> create n f' = create n f).
Proof.
  intros Hnd Hfresh Hk Hc.
  destruct (registerAll_ok name ks1 f Hnd Hfresh) as (f1 & Hreg & Hin & Hout).
  exists f1. rewrite registerAll_app, Hreg.
  rewrite (registerAll_taken name k ks2 f1 c') by (by rewrite Hout).
  auto.
Qed.

(** C15 (equivalence): registration into empty factories builds the
    reference registries of its two blocks.  For every type name, each
    factory creates what the table of the code's calls gives, and
    creating a dictionary looks the source up in the first table, then
    the layout in the second. *)
Theorem registerDictionaries_reference :
  exists st, registerDictionaries (F:=F) empty_factories = (st, None) /\
  forall n,
    create n (source_factory st) = registered source_type_name source_registrations n /\
    create n (layout_factory st) = registered layout_type_name layout_registrations n /\
    forall l, createDictionary st n l =
      (s ← registered source_type_name source_registrations n;
       k ← registered layout_type_name layout_registrations l;
       Ok (k, s)).
Proof.
  destruct registerDictionaries_empty as (st & Hreg & Hs & Hsu & Hl & Hlu).
  exists st. split; [done|].
  assert (HS := create_registered _ _ _ source_names_NoDup
                  (fun k _ => Hs k) Hsu).
  assert (HL := create_registered _ _ _ layout_names_NoDup
                  (fun k _ => Hl k) Hlu).
  intros n. split_and!; [done | done |].
  intros l. unfold createDictionary. by rewrite HS, HL.
Qed.

End Laws.

(** ** Witnesses, on the hash-map factories of [Registry] *)

Lemma registerDictionaries_creates_witness :
  exists st, registerDictionaries (F:=gmap string) empty_factories = (st, None) /\
    (forall k, create (source_type_name k) (source_factory st) = Ok k) /\
    (forall k, create (layout_type_name k) (layout_factory st) = Ok k).
Proof. apply registerDictionaries_creates. Defined.

Lemma registerDictionaries_twice_witness :
  let st := fst (registerDictionaries (F:=gmap string) empty_factories) in
  registerDictionaries (F:=gmap string) empty_factories = (st, None) /\
  registerDictionaries st = (st, Some (LOGICAL_ERROR "file")).
Proof. cbv zeta. split; [reflexivity | apply registerDictionaries_twice; reflexivity]. Defined.

Lemma createDictionary_registered_witness :
  let st := fst (registerDictionaries (F:=gmap string) empty_factories) in
  registerDictionaries (F:=gmap string) empty_factories = (st, None) /\
  createDictionary st "file" "flat" = Ok (Flat, SourceFile) /\
  createDictionary st "sqlite" "no_such_layout" = Err (UNKNOWN_ELEMENT_IN_CONFIG "sqlite").
Proof.
  cbv zeta.
  assert (Hreg : registerDictionaries (F:=gmap string) empty_factories =
                 (fst (registerDictionaries (F:=gmap string) empty_factories), None))
    by reflexivity.
  split; [exact Hreg|].
  destruct (createDictionary_registered _ Hreg) as (Hok & Hsrc & _).
  split; [apply (Hok SourceFile Flat) | apply Hsrc; intros k; destruct k; discriminate].
Defined.

(** A factory where "mysql" is already taken: [registerSources] registers
    "file", then throws on "mysql"; "file" stays registered. *)
Lemma registerAll_exception_keeps_prefix_witness :
  let f : gmap string SourceKind := <["mysql" := SourceMysql]> ∅ in
  NoDup (map source_type_name [SourceFile]) /\
  Forall (fun k' => create (source_type_name k') f =
                    Err (UNKNOWN_ELEMENT_IN_CONFIG (source_type_name k'))) [SourceFile] /\
  (source_type_name SourceMysql ∉ map source_type_name [SourceFile]) /\
  create (source_type_name SourceMysql) f = Ok SourceMysql /\
  exists f', registerSources f = (f', Some (LOGICAL_ERROR "mysql")) /\
    create "file" f' = Ok SourceFile.
Proof.
  cbv zeta.
  assert (Hnd : NoDup (map source_type_name [SourceFile])) by by_decision.
  assert (Hfr : Forall (fun k' => create (source_type_name k') (<["mysql" := SourceMysql]> ∅ : gmap string SourceKind) =
                    Err (UNKNOWN_ELEMENT_IN_CONFIG (source_type_name k'))) [SourceFile])
    by (repeat constructor).
  assert (Hk : source_type_name SourceMysql ∉ map source_type_name [SourceFile]) by by_decision.
  assert (Hc : create (source_type_name SourceMysql)
                 (<["mysql" := SourceMysql]> ∅ : gmap string SourceKind) = Ok SourceMysql)
    by reflexivity.
  split_and!; [exact Hnd | exact Hfr | exact Hk | exact Hc |].
  destruct (registerAll_exception_keeps_prefix source_type_name [SourceFile] SourceMysql
              [SourceClickHouse; SourceMongoDB; SourceRedis; SourceXDBC; SourceJDBC;
               SourceExecutable; SourceHTTP; SourceLibrary] _ SourceMysql Hnd Hfr Hk Hc)
    as (f' & Hreg & Hin & _).
  exists f'. split; [exact Hreg|]. apply (Hin SourceFile). left; reflexivity.
Defined.

(** On the hash maps: "hashed" and "file" create their kinds, "sqlite"
    is unknown, as in the reference tables. *)
Lemma registerDictionaries_reference_witness :
  exists st, registerDictionaries (F:=gmap string) empty_factories = (st, None) /\
    createDictionary st "file" "hashed" = Ok (Hashed, SourceFile) /\
    create "sqlite" (source_factory st) = Err (UNKNOWN_ELEMENT_IN_CONFIG "sqlite").
Proof.
  destruct (registerDictionaries_reference (F:=gmap string)) as (st & Hreg & Href).
  exists st. split; [exact Hreg|]. split.
  - destruct (Href "file") as (_ & _ & ->). reflexivity.
  - destruct (Href "sqlite") as (-> & _). reflexivity.
Defined.

End Registration.
