(* ===== verification/Layout.v ===== *)
(** * Layout: the storage layouts of a dictionary and their interface

    The dictionary engine is not in [src/]: its layouts ([registerDictionary<X>]
    registers them by name, see [Registration]) are modelled from the spec.
    A layout builds a snapshot from the rows of a bulk load of its source,
    or refuses the rows, and answers point lookups on a snapshot.  The
    facade ([Dictionary]) is written against the class [DictionaryLayout];
    the hashed layout and the range_hashed layout (per-key intervals,
    overlapping ones refused, lookup by key and point) are its instances
    on [gmap], and the range_hashed build and lookup are proved against a
    declarative specification ([intervals_of], [rows_disjoint]). *)

From S2P Require Import Prelude.
From stdpp Require Import gmap.

Module Layout.
Local Open Scope Z_scope.

(** The error taxonomy of the dictionary engine (spec, section 7); its
    [UnknownKind] is the factories' [UNKNOWN_ELEMENT_IN_CONFIG]
    ([Registry]). *)
Inductive DictionaryError :=
  | SourceUnavailable
  | SourceDataError
  | DictionaryNotLoaded
  | NotFound.

(** A layout with source rows [R], lookup queries [Q], attribute values
    [A] and snapshots [L]: [layout_build] is the bulk load into a scratch
    structure (an error aborts it), [layout_lookup] the lookup of a
    published snapshot.  A hashed layout is queried by the key of its
    rows; a range_hashed one by a key and a point. *)
Class DictionaryLayout (R Q A L : Type) := {
  layout_build : list R -> result DictionaryError L;
  layout_lookup : L -> Q -> option A
}.

(** The value the last row for [k] carries, if any row has key [k]. *)
Fixpoint last_value {K A} `{EqDecision K} (rows : list (K * A)) (k : K) : option A :=
  match rows with
  | [] => None
  | (k', a) :: rest =>
      match last_value rest k with
      | Some b => Some b
      | None => if decide (k = k') then Some a else None
      end
  end.

Module Hashed.

(** The hashed layout: a hash map from key to attributes, filled row by
    row in load order (a later row for a key replaces an earlier one);
    building never fails. *)
#[export] Instance hashed_layout (K A : Type) `{Countable K} :
    DictionaryLayout (K * A) K A (gmap K A) := {|
  layout_build rows := Ok (fold_left (fun m ka => <[ka.1 := ka.2]> m) rows ∅);
  layout_lookup m k := m !! k
|}.

End Hashed.

Module RangeHashed.

Section Build.
Context {K A : Type} `{Countable K}.

(** One row [(key, (start, end), attributes)] of the bulk load: the
    intervals of a key are kept in load order; a row whose closed
    interval [start, end] shares a point with an interval already loaded
    for its key aborts the load with [SourceDataError]. *)
Definition insertRange (acc : result DictionaryError (gmap K (list (Z * Z * A))))
    (r : K * (Z * Z) * A) : result DictionaryError (gmap K (list (Z * Z * A))) :=
  m ← acc;
  let ivs := default [] (m !! r.1.1) in
  if existsb (fun iv => (iv.1.1 <=? r.1.2.2) && (r.1.2.1 <=? iv.1.2)) ivs
  then Err SourceDataError
  else Ok (<[r.1.1 := ivs ++ [(r.1.2, r.2)]]> m).

End Build.

(** The range_hashed layout: built row by row by [insertRange]; the
    lookup of a key and a point returns the attributes of the key's
    interval containing the point. *)
#[export] Instance range_hashed_layout (K A : Type) `{Countable K} :
    DictionaryLayout (K * (Z * Z) * A) (K * Z) A (gmap K (list (Z * Z * A))) := {|
  layout_build rows := fold_left insertRange rows (Ok ∅);
  layout_lookup m q :=
    match List.find (fun iv => (iv.1.1 <=? q.2) && (q.2 <=? iv.1.2)) (default [] (m !! q.1)) with
    | Some iv => Some iv.2
    | None => None
    end
|}.

(** ** Specification *)

(** Two closed intervals share a point. *)
Definition intervals_overlap (i j : Z * Z) : Prop := i.1 <= j.2 /\ j.1 <= i.2.

(** The intervals of the rows of key [k], in load order. *)
Definition intervals_of {K A} `{EqDecision K} (rows : list (K * (Z * Z) * A)) (k : K)
    : list (Z * Z * A) :=
  map (fun r => (r.1.2, r.2)) (filter (fun r => r.1.1 = k) rows).

(** The rows satisfy the layout's invariant: no two intervals of one key
    overlap. *)
Definition rows_disjoint {K A} `{EqDecision K} (rows : list (K * (Z * Z) * A)) : Prop :=
  forall k, ForallOrdPairs (fun x y : Z * Z * A => ~ intervals_overlap x.1 y.1) (intervals_of rows k).

End RangeHashed.

(** ** Lemmas *)

Lemma last_value_app {K A} `{EqDecision K} (rows1 rows2 : list (K * A)) k :
  last_value (rows1 ++ rows2) k =
  match last_value rows2 k with Some b => Some b | None => last_value rows1 k end.
Proof.
  induction rows1 as [|[k' a] rows1 IH]; simpl.
  - by destruct (last_value rows2 k).
  - rewrite IH. by destruct (last_value rows2 k).
Qed.

(** Filling a map row by row: a key's value is that of its last row, or
    the map's own value when no row has the key. *)
Lemma fold_insert_lookup {K A} `{Countable K} (rows : list (K * A)) (m : gmap K A) k :
  fold_left (fun m ka => <[ka.1 := ka.2]> m) rows m !! k =
  match last_value rows k with Some a => Some a | None => m !! k end.
Proof.
  revert m. induction rows as [|[k' a] rows IH]; intros m; simpl; [done|].
  rewrite IH. destruct (last_value rows k); [done|].
  rewrite lookup_insert. by case_decide; case_decide; subst.
Qed.

Section RangeHashedFacts.
Import RangeHashed.
Context {K A : Type} `{Countable K}.
Implicit Types rows : list (K * (Z * Z) * A).

Lemma overlap_check (i j : Z * Z) :
  ((i.1 <=? j.2) && (j.1 <=? i.2)) = true <-> intervals_overlap i j.
Proof. unfold intervals_overlap. by rewrite andb_true_iff, !Z.leb_le. Qed.

Lemma contains_check (i : Z * Z) p : ((i.1 <=? p) && (p <=? i.2)) = true <-> i.1 <= p <= i.2.
Proof. by rewrite andb_true_iff, !Z.leb_le. Qed.

Lemma fold_insertRange_err rows e :
  fold_left (insertRange (K:=K) (A:=A)) rows (Err e) = Err e.
Proof. induction rows as [|r rows IH]; [done | exact IH]. Qed.

Lemma intervals_of_snoc rows r k :
  intervals_of (rows ++ [r]) k =
  intervals_of rows k ++ (if decide (r.1.1 = k) then [(r.1.2, r.2)] else []).
Proof.
  unfold intervals_of. rewrite filter_app, map_app, filter_cons, filter_nil.
  by case_decide.
Qed.

Lemma In_intervals_of rows k iv a :
  In (iv, a) (intervals_of rows k) <-> In (k, iv, a) rows.
Proof.
  unfold intervals_of. rewrite in_map_iff. setoid_rewrite <- list_elem_of_In.
  setoid_rewrite list_elem_of_filter. split.
  - intros ([[k' iv'] a'] & [= <- <-] & <- & Hr). done.
  - intros Hr. by exists (k, iv, a).
Qed.

Lemma rows_disjoint_snoc rows r :
  rows_disjoint (rows ++ [r]) <->
  rows_disjoint rows /\ Forall (fun y => ~ intervals_overlap y.1 r.1.2) (intervals_of rows r.1.1).
Proof.
  unfold rows_disjoint. setoid_rewrite intervals_of_snoc. split.
  - intros Hd. split.
    + intros k. specialize (Hd k). case_decide.
      * by apply ForallOrdPairs_snoc in Hd as [? _].
      * by rewrite app_nil_r in Hd.
    + specialize (Hd r.1.1). rewrite decide_True in Hd by done.
      by apply ForallOrdPairs_snoc in Hd as [_ ?].
  - intros [Hd Hf] k. case_decide as Hk.
    + subst k. by apply ForallOrdPairs_snoc.
    + rewrite app_nil_r. apply Hd.
Qed.

(** The bulk load of a list of rows gives a snapshot holding the
    intervals of each key in load order when no two intervals of a key
    overlap, and [SourceDataError] otherwise. *)
Lemma range_build_spec rows :
  match fold_left (insertRange (K:=K) (A:=A)) rows (Ok ∅) with
  | Ok m => rows_disjoint rows /\ forall k, default [] (m !! k) = intervals_of rows k
  | Err e => e = SourceDataError /\ ~ rows_disjoint rows
  end.
Proof.
  induction rows as [|r rows IH] using rev_ind.
  - split; [intros k; constructor | intros k; by rewrite lookup_empty].
  - rewrite fold_left_app. cbn [fold_left].
    destruct (fold_left insertRange rows (Ok ∅)) as [m|e]; cbn [insertRange mbind result_bind].
    + destruct IH as [Hd Hm]. rewrite (Hm r.1.1).
      destruct (existsb _ (intervals_of rows r.1.1)) eqn:Ex.
      * split; [done|]. rewrite rows_disjoint_snoc. intros [_ Hf].
        apply existsb_exists in Ex as (y & Hy & Hov%overlap_check).
        by apply (proj1 (List.Forall_forall _ _) Hf y Hy).
      * split; [apply rows_disjoint_snoc; split; [done|]|].
        { apply List.Forall_forall. intros y Hy Hov%overlap_check.
          assert (existsb (fun iv => (iv.1.1 <=? r.1.2.2) && (r.1.2.1 <=? iv.1.2))
                    (intervals_of rows r.1.1) = true) by (apply existsb_exists; eauto).
          congruence. }
        intros k. rewrite intervals_of_snoc, lookup_insert.
        case_decide as Hk; simpl; [by subst k | rewrite app_nil_r; apply Hm].
    + destruct IH as [-> Hnd]. split; [done|]. rewrite rows_disjoint_snoc. tauto.
Qed.

(** Among pairwise disjoint intervals, at most one contains a point. *)
Lemma disjoint_unique_point (l : list (Z * Z * A)) x y p :
  ForallOrdPairs (fun x y : Z * Z * A => ~ intervals_overlap x.1 y.1) l ->
  In x l -> In y l -> x.1.1 <= p <= x.1.2 -> y.1.1 <= p <= y.1.2 -> x = y.
Proof.
  induction 1 as [|a l Ha Hl IH]; [done|].
  rewrite List.Forall_forall in Ha. unfold intervals_overlap in Ha.
  intros [<-|Hx] [<-|Hy] Hpx Hpy; [done | | | auto].
  - destruct (Ha y Hy). lia.
  - destruct (Ha x Hx). lia.
Qed.

(** RangeHashed build (spec, section 8): a bulk load succeeds iff no two
    intervals of one key overlap, and fails with [SourceDataError]
    otherwise. *)
Theorem range_build_disjoint rows :
  ((exists m, layout_build (L:=gmap K (list (Z * Z * A))) rows = Ok m) <-> rows_disjoint rows) /\
  (layout_build (L:=gmap K (list (Z * Z * A))) rows = Err SourceDataError <-> ~ rows_disjoint rows).
Proof.
  pose proof (range_build_spec rows) as Hs. cbn [layout_build range_hashed_layout].
  destruct (fold_left insertRange rows (Ok ∅)) as [m|e]; destruct Hs as [Hd Hm];
    [split; split; [eauto | eauto | done | tauto] |].
  subst e. split; split; [by intros [? ?] | tauto | done | done].
Qed.

(** RangeHashed lookup (round trip): in a snapshot built from [rows], the
    lookup of key [k] at point [p] gives [a] iff a row of [k] carries [a]
    on an interval containing [p]. *)
Theorem range_lookup_spec rows (m : gmap K (list (Z * Z * A))) k p a :
  layout_build rows = Ok m ->
  layout_lookup m (k, p) = Some a <-> exists iv, In (k, iv, a) rows /\ iv.1 <= p <= iv.2.
Proof.
  intros Hb. pose proof (range_build_spec rows) as Hs.
  cbn [layout_build range_hashed_layout] in Hb. rewrite Hb in Hs. destruct Hs as [Hd Hm].
  cbn [layout_lookup range_hashed_layout fst snd]. rewrite (Hm k). specialize (Hd k).
  destruct (List.find _ (intervals_of rows k)) as [[iv' a']|] eqn:Hf.
  - apply find_some in Hf as [Hx Hpx%contains_check].
    split; [intros [= <-]; exists iv'; by rewrite <- In_intervals_of|].
    intros (iv & Hin%In_intervals_of & Hp).
    by assert ((iv', a') = (iv, a)) as [= _ ->] by (by eapply disjoint_unique_point).
  - split; [done|]. intros (iv & Hin%In_intervals_of & Hp).
    pose proof (find_none _ _ Hf (iv, a) Hin) as Hc. cbn in Hc.
    apply not_true_iff_false in Hc. by destruct Hc; apply contains_check.
Qed.

End RangeHashedFacts.

End Layout.
