(* ===== verification/Dictionary.v ===== *)
(** * Dictionary: the facade a caller holds

    Modelled from the spec (sections 4.3, 4.5, 5, 7): the facade owns a
    layout and publishes snapshots of it.  [reload] probes the source
    ([isModified]); unless a snapshot is published and the source is
    unmodified, it runs [loadAll], builds a new snapshot in a scratch
    structure and publishes it by one swap; a failed load or build keeps
    the published snapshot and records the error.  [get] answers from the
    published snapshot.  Interleaving of lookups with reloads is the step
    relation [step] over traces of events; its reachable states are those
    of [reachable].  Everything is generic in the layout, through the
    class [DictionaryLayout]. *)

From S2P Require Import Prelude Layout.
From stdpp Require Import gmap.

Module Dictionary.
Import Layout Layout.Hashed Layout.RangeHashed.
Local Open Scope Z_scope.
Local Open Scope string_scope.

Section Facade.
Context {R Q A L : Type} `{!DictionaryLayout R Q A L}.

(** The facade's state: the published snapshot (of the last successful
    load) and the error of the last failed load, if the last load failed. *)
Record DictState := mkDictState {
  published : option L;
  last_error : option DictionaryError
}.

(** A dictionary never loaded. *)
Definition initial : DictState := mkDictState None None.

(** [reload()], with the source's answers to [isModified()] and
    [loadAll()]. *)
Definition reload (modified : bool) (load_all : result DictionaryError (list R))
    (st : DictState) : DictState :=
  match published st, modified with
  | Some _, false => st
  | _, _ =>
      match load_all ≫= layout_build with
      | Ok snapshot => mkDictState (Some snapshot) None
      | Err e => mkDictState (published st) (Some e)
      end
  end.

(** [get(key)]: [DictionaryNotLoaded] before any successful load,
    [NotFound] for a key absent from the published snapshot. *)
Definition get (st : DictState) (k : Q) : result DictionaryError A :=
  match published st with
  | None => Err DictionaryNotLoaded
  | Some snapshot =>
      match layout_lookup snapshot k with
      | Some a => Ok a
      | None => Err NotFound
      end
  end.

(** [bulkGet(keys)]: each key with the answer of [get], in input order,
    all read from the one published snapshot. *)
Definition bulkGet (st : DictState) (ks : list Q) : list (Q * result DictionaryError A) :=
  map (fun k => (k, get st k)) ks.

(** [isLoaded()]: a load has succeeded. *)
Definition isLoaded (st : DictState) : bool :=
  match published st with Some _ => true | None => false end.

(** What callers observe, in the order the operations take effect. *)
Inductive Event :=
  | EvReload (modified : bool) (load_all : result DictionaryError (list R))
  | EvGet (k : Q) (r : result DictionaryError A).

(** A reload publishes in one step; a lookup reads the state as it is. *)
Inductive step : DictState -> Event -> DictState -> Prop :=
  | step_reload st modified load_all :
      step st (EvReload modified load_all) (reload modified load_all st)
  | step_get st k :
      step st (EvGet k (get st k)) st.

(** The states reachable from a never-loaded dictionary, with the trace
    of events that led there. *)
Inductive reachable : DictState -> list Event -> Prop :=
  | reachable_initial : reachable initial []
  | reachable_step st tr ev st' :
      reachable st tr -> step st ev st' -> reachable st' (tr ++ [ev]).

(** A trace holds a reload whose load and build succeeded. *)
Definition loaded_in (tr : list Event) : Prop :=
  exists modified load_all snapshot,
    In (EvReload modified load_all) tr /\ (load_all ≫= layout_build) = Ok snapshot.

(** A published snapshot is always a complete build of some rows. *)
Definition published_built (st : DictState) : Prop :=
  forall snapshot, published st = Some snapshot ->
  exists rows, layout_build rows = Ok snapshot.

End Facade.

Arguments DictState : clear implicits.
Arguments Event : clear implicits.

(** ** A sample: a hashed dictionary from integers to strings

    Loaded with three rows (key 1 twice), then a refresh whose source is
    unavailable; lookups before, between and after. *)

Definition sample_rows : list (Z * string) := [(1, "a"); (2, "b"); (1, "c")].

Definition sample_unavailable : result DictionaryError (list (Z * string)) :=
  Err SourceUnavailable.

Definition sample_loaded : DictState (gmap Z string) := reload true (Ok sample_rows) initial.

Definition sample_final : DictState (gmap Z string) :=
  reload true sample_unavailable sample_loaded.

Definition sample_trace : list (Event (Z * string) Z string) :=
  (((([] ++ [EvGet 1 (Err DictionaryNotLoaded)])
      ++ [EvReload true (Ok sample_rows)])
      ++ [EvGet 1 (Ok "c")])
      ++ [EvReload true sample_unavailable])
      ++ [EvGet 1 (Ok "c")].

(** A range_hashed dictionary of prices per product and day: product 1
    has two consecutive periods, product 2 one; a second load gives
    product 1 two overlapping periods. *)
Definition sample_ranges : list (Z * (Z * Z) * string) :=
  [(1, (0, 9), "a"); (1, (10, 19), "b"); (2, (0, 100), "c")].

Definition sample_overlapping : list (Z * (Z * Z) * string) :=
  [(1, (0, 9), "a"); (1, (5, 12), "x")].

Definition sample_range_loaded : DictState (gmap Z (list (Z * Z * string))) :=
  reload true (Ok sample_ranges) initial.

Section Proofs.
Context {R Q A L : Type} `{!DictionaryLayout R Q A L}.

(** ** Lemmas *)

(** A reload leaves the state alone, publishes a new build, or records
    the error of a failed load or build. *)
Lemma reload_cases (modified : bool) (load_all : result DictionaryError (list R))
    (st : DictState L) :
  (reload modified load_all st = st /\ isLoaded st = true /\ modified = false) \/
  (exists snapshot, (load_all ≫= layout_build) = Ok snapshot /\
     reload modified load_all st = mkDictState (Some snapshot) None) \/
  (exists e, (load_all ≫= layout_build) = Err e /\
     reload modified load_all st = mkDictState (published st) (Some e)).
Proof.
  unfold reload, isLoaded.
  destruct (published st), modified; try (left; done);
    destruct (load_all ≫= layout_build); eauto.
Qed.

Lemma build_bind_ok (load_all : result DictionaryError (list R)) snapshot :
  (load_all ≫= layout_build) = Ok snapshot ->
  exists rows, load_all = Ok rows /\ layout_build rows = Ok snapshot.
Proof. destruct load_all as [rows|]; cbn; [eauto | discriminate]. Qed.

Lemma step_get_eq (st : DictState L) k r : get st k = r -> step st (EvGet k r) st.
Proof. intros <-. constructor. Qed.

Lemma published_built_step st ev st' :
  published_built st -> step st ev st' -> published_built st'.
Proof.
  intros Hb Hstep. inversion Hstep as [? modified load_all|]; subst; [|done].
  destruct (reload_cases modified load_all st) as [(-> & _) | [(s & Hs & ->) | (e & _ & ->)]];
    [done | | done].
  intros s' [= <-]. destruct (build_bind_ok _ _ Hs) as (rows & _ & Hrows). eauto.
Qed.

Lemma published_built_reachable st tr : reachable st tr -> published_built st.
Proof.
  induction 1; [by intros ? ? | eauto using published_built_step].
Qed.

Lemma isLoaded_reload (modified : bool) load_all (st : DictState L) :
  isLoaded (reload modified load_all st) = false <->
  isLoaded st = false /\ forall snapshot, (load_all ≫= layout_build) <> Ok snapshot.
Proof.
  destruct (reload_cases modified load_all st) as [(-> & Hl & _) | [(s & Hs & ->) | (e & He & ->)]].
  - rewrite Hl. naive_solver.
  - simpl. split; [done|]. intros [_ Hn]. by destruct (Hn s).
  - unfold isLoaded. simpl. rewrite He. naive_solver.
Qed.

Lemma loaded_in_snoc (tr : list (Event R Q A)) ev :
  loaded_in (L:=L) (tr ++ [ev]) <->
  loaded_in (L:=L) tr \/
  exists modified load_all snapshot, ev = EvReload modified load_all /\
    (load_all ≫= layout_build) = Ok snapshot.
Proof.
  unfold loaded_in. setoid_rewrite in_app_iff. simpl. naive_solver.
Qed.

(** ** Theorems *)

(** Safety under interleaving: in any sequence of reloads and lookups
    from a never-loaded dictionary, every lookup answered
    [DictionaryNotLoaded] or the answer of a published snapshot that is a
    complete build of some rows: a reader never sees a partial build. *)
Theorem reads_observe_complete_builds st tr k r :
  reachable (L:=L) st tr -> In (EvGet k r) tr ->
  r = Err DictionaryNotLoaded \/
  exists rows snapshot, layout_build rows = Ok snapshot /\
    r = get (mkDictState (Some snapshot) None) k.
Proof.
  induction 1 as [|st tr ev st' Hr IH Hstep]; [done|].
  rewrite in_app_iff. intros [Hin | [-> | []]]; [auto|].
  inversion Hstep; subst. destruct (published st') as [s|] eqn:E.
  - right. destruct (published_built_reachable _ _ Hr s E) as [rows Hb].
    exists rows, s. split; [done|]. unfold get. by rewrite E.
  - left. unfold get. by rewrite E.
Qed.

(** Errors: a reload whose load or build fails ([SourceUnavailable],
    [SourceDataError]) keeps the published snapshot: every lookup answers
    as before and [isLoaded] is unchanged; the error is recorded. *)
Theorem reload_failure_keeps_snapshot (st : DictState L) modified load_all e :
  (load_all ≫= layout_build) = Err e ->
  modified = true \/ isLoaded st = false ->
  published (reload modified load_all st) = published st /\
  (forall k, get (reload modified load_all st) k = get st k) /\
  isLoaded (reload modified load_all st) = isLoaded st /\
  last_error (reload modified load_all st) = Some e.
Proof.
  intros He Hm.
  destruct (reload_cases modified load_all st) as [(_ & Hl & ->) | [(s & Hs & _) | (e' & He' & ->)]].
  - destruct Hm; congruence.
  - congruence.
  - rewrite He in He'. injection He' as <-. done.
Qed.

(** Idempotence: a reload of a loaded dictionary whose
    source reports itself unmodified changes nothing, and two forced
    reloads of an unchanged source publish the same snapshot. *)
Theorem reload_idempotent (st : DictState L) load_all :
  (isLoaded st = true -> reload false load_all st = st) /\
  (forall snapshot, (load_all ≫= layout_build) = Ok snapshot ->
     reload true load_all (reload true load_all st) = reload true load_all st).
Proof.
  split.
  - unfold isLoaded, reload. by destruct (published st).
  - intros s Hs.
    assert (H1 : reload true load_all st = mkDictState (Some s) None)
      by (unfold reload; destruct (published st); by rewrite Hs).
    rewrite H1. unfold reload. simpl. by rewrite Hs.
Qed.

(** Not loaded: a reachable dictionary is not loaded, so that every
    lookup answers [DictionaryNotLoaded], iff no reload so far has
    loaded and built its rows. *)
Theorem not_loaded_iff_no_successful_load st tr :
  reachable (L:=L) st tr -> (isLoaded st = false <-> ~ loaded_in (L:=L) tr).
Proof.
  induction 1 as [|st tr ev st' Hr IH Hstep].
  - split; [intros _ (? & ? & ? & [] & _) | done].
  - rewrite loaded_in_snoc. inversion Hstep as [? m la|]; subst.
    + rewrite isLoaded_reload, IH. naive_solver.
    + rewrite IH. naive_solver.
Qed.

(** A batch lookup in any reachable state reads one complete snapshot:
    either the dictionary is not loaded and every answer is
    [DictionaryNotLoaded], or one complete build answers every key of the
    batch, never a mix of two snapshots. *)
Theorem bulkGet_one_snapshot st tr ks :
  reachable (L:=L) st tr ->
  bulkGet st ks = map (fun k => (k, Err DictionaryNotLoaded)) ks \/
  exists rows snapshot, layout_build rows = Ok snapshot /\
    bulkGet st ks = bulkGet (mkDictState (Some snapshot) None) ks.
Proof.
  intros Hr. unfold bulkGet, get. destruct (published st) as [s|] eqn:E; [right | by left].
  destruct (published_built_reachable _ _ Hr s E) as [rows Hb]. by exists rows, s.
Qed.

(** Never removed from service: no step, a failed reload included,
    takes a loaded dictionary back to not loaded. *)
Theorem step_keeps_loaded st ev st' :
  step (L:=L) st ev st' -> isLoaded st = true -> isLoaded st' = true.
Proof.
  inversion 1 as [? modified load_all|]; subst; [|done]. intros Hl.
  destruct (isLoaded (reload modified load_all st)) eqn:E; [done|].
  apply isLoaded_reload in E as [E _]. congruence.
Qed.

End Proofs.

Section HashedFacade.
Context {K A : Type} `{Countable K}.

(** Round trip of the hashed layout: a hashed dictionary loaded from rows
    answers each key with the attributes of its last row in load order,
    and [NotFound] for a key no row has. *)
Theorem hashed_reload_get modified (rows : list (K * A)) k :
  get (reload modified (Ok rows) (initial (L:=gmap K A))) k =
  match last_value rows k with Some a => Ok a | None => Err NotFound end.
Proof.
  unfold get, reload, initial. cbn. rewrite fold_insert_lookup, lookup_empty.
  by destruct (last_value rows k).
Qed.

End HashedFacade.

Section RangeFacade.
Context {K A : Type} `{Countable K}.

(** A range_hashed dictionary loaded (or reloaded by force) from rows
    whose intervals are disjoint per key answers a key and a point with
    the attributes of the interval containing the point. *)
Theorem range_reload_get modified rows (st : DictState (gmap K (list (Z * Z * A)))) k p a :
  rows_disjoint rows -> modified = true \/ isLoaded st = false ->
  get (reload modified (Ok rows) st) (k, p) = Ok a <->
  exists iv, In (k, iv, a) rows /\ iv.1 <= p <= iv.2.
Proof.
  intros Hd Hm. destruct (proj2 (proj1 (range_build_disjoint rows)) Hd) as [m Hb].
  destruct (reload_cases modified (Ok rows) st) as [(_ & Hl & ->) | [(s & Hs & ->) | (e & He & _)]].
  - destruct Hm; congruence.
  - change (layout_build rows = Ok s) in Hs. rewrite Hb in Hs. injection Hs as <-.
    rewrite <- (range_lookup_spec rows m k p a Hb). unfold get. cbn [published].
    destruct (layout_lookup m (k, p)); naive_solver.
  - change (layout_build rows = Err e) in He. congruence.
Qed.

(** A reload whose rows give one key two overlapping intervals fails
    with [SourceDataError] and keeps every answer of the published
    snapshot. *)
Theorem range_reload_overlap_keeps modified rows (st : DictState (gmap K (list (Z * Z * A)))) :
  ~ rows_disjoint rows -> modified = true \/ isLoaded st = false ->
  (forall q, get (reload modified (Ok rows) st) q = get st q) /\
  last_error (reload modified (Ok rows) st) = Some SourceDataError.
Proof.
  intros Hnd Hm. assert (He : (Ok rows ≫= layout_build (L:=gmap K (list (Z * Z * A)))) =
                               Err SourceDataError) by (apply range_build_disjoint, Hnd).
  destruct (reload_failure_keeps_snapshot st modified (Ok rows) SourceDataError He Hm)
    as (_ & Hget & _ & Herr). auto.
Qed.

End RangeFacade.

(** ** Examples on the sample *)

Lemma sample_reachable : reachable sample_final sample_trace.
Proof.
  unfold sample_trace, sample_final, sample_loaded.
  repeat (eapply reachable_step;
          [| first [apply step_reload | apply step_get_eq; reflexivity]]).
  constructor.
Qed.

Lemma reads_observe_complete_builds_example :
  reachable sample_final sample_trace /\ In (EvGet 1 (Ok "c")) sample_trace /\
  (Ok "c" = Err DictionaryNotLoaded \/
   exists (rows : list (Z * string)) (snapshot : gmap Z string),
     layout_build rows = Ok snapshot /\
     Ok "c" = get (mkDictState (Some snapshot) None) (1 : Z)).
Proof.
  assert (Hin : In (EvGet 1 (Ok "c")) sample_trace) by (vm_compute; tauto).
  split; [exact sample_reachable|]. split; [exact Hin|].
  exact (reads_observe_complete_builds _ _ _ _ sample_reachable Hin).
Defined.

Lemma reload_failure_keeps_snapshot_example :
  (sample_unavailable ≫= layout_build (L:=gmap Z string)) = Err SourceUnavailable /\
  get sample_final 1 = Ok "c" /\ isLoaded sample_final = true.
Proof.
  assert (He : (sample_unavailable ≫= layout_build (L:=gmap Z string)) = Err SourceUnavailable)
    by reflexivity.
  destruct (reload_failure_keeps_snapshot sample_loaded true sample_unavailable
              SourceUnavailable He (or_introl eq_refl)) as (_ & Hget & Hl & _).
  split; [exact He|]. unfold sample_final. rewrite Hget, Hl. split; reflexivity.
Defined.

Lemma reload_idempotent_example :
  isLoaded sample_loaded = true /\ reload false sample_unavailable sample_loaded = sample_loaded /\
  reload true (Ok sample_rows) sample_loaded = sample_loaded.
Proof.
  destruct (reload_idempotent (initial (L:=gmap Z string)) (Ok sample_rows)) as [_ Htwice].
  destruct (reload_idempotent sample_loaded sample_unavailable) as [Hskip _].
  split; [reflexivity|]. split; [apply Hskip; reflexivity|].
  apply (Htwice _ eq_refl).
Defined.

Lemma not_loaded_iff_no_successful_load_example :
  reachable sample_final sample_trace /\ isLoaded sample_final = true /\
  ~ ~ loaded_in (L:=gmap Z string) sample_trace.
Proof.
  split; [exact sample_reachable|]. split; [reflexivity|].
  intros Hn. apply (not_loaded_iff_no_successful_load _ _ sample_reachable) in Hn.
  discriminate.
Defined.

Lemma hashed_reload_get_example :
  get (reload true (Ok sample_rows) (initial (L:=gmap Z string))) 1 = Ok "c" /\
  get (reload true (Ok sample_rows) (initial (L:=gmap Z string))) 3 = Err NotFound.
Proof. split; rewrite hashed_reload_get; reflexivity. Defined.

(** Product 1 costs "b" on day 12; a reload with overlapping periods
    fails and product 2 still costs "c" on day 50. *)
Lemma range_reload_example :
  get sample_range_loaded (1, 12) = Ok "b" /\
  get (reload true (Ok sample_overlapping) sample_range_loaded) (2, 50) = Ok "c" /\
  last_error (reload true (Ok sample_overlapping) sample_range_loaded) = Some SourceDataError.
Proof.
  assert (Hd : rows_disjoint sample_ranges).
  { apply range_build_disjoint. eexists. reflexivity. }
  assert (Hnd : ~ rows_disjoint sample_overlapping) by (apply range_build_disjoint; reflexivity).
  destruct (range_reload_overlap_keeps true sample_overlapping sample_range_loaded Hnd (or_introl eq_refl))
    as [Hget Herr].
  split; [|split; [rewrite Hget|exact Herr]];
    apply (range_reload_get _ _ _ _ _ _ Hd (or_introl eq_refl)).
  - exists (10, 19). split; [simpl; tauto | simpl; lia].
  - exists (0, 100). split; [simpl; tauto | simpl; lia].
Qed.

(** After the failed refresh, a batch lookup answers from the snapshot of
    the first load, in input order. *)
Lemma bulkGet_one_snapshot_example :
  bulkGet sample_final [3; 1; 2] = [(3, Err NotFound); (1, Ok "c"); (2, Ok "b")] /\
  exists (rows : list (Z * string)) (snapshot : gmap Z string),
    layout_build rows = Ok snapshot /\
    bulkGet sample_final [3; 1; 2] = bulkGet (mkDictState (Some snapshot) None) [3; 1; 2].
Proof.
  split; [reflexivity|].
  destruct (bulkGet_one_snapshot _ _ [3; 1; 2] sample_reachable) as [H|H]; [discriminate | exact H].
Qed.

End Dictionary.
